(** * Domain-base RAG chatbot: the session service and its HTTP front

    A shallow embedding of [lanchain_chotbot.py] (class [RAGServiceModern])
    and of the routes of [app.py].

    The Python object is a record of its fields.  Everything outside the
    process (the disk, the PDF loader, the FAISS store, the embedding
    model, the Ollama server) is a set of functions over an abstract
    [World]; every call of one of them is also recorded in a call log, so
    that "this operation never reaches the generation backend" is a
    statement about the log.  Methods are computations in a small
    state-and-exception monad in which an exception does NOT undo the
    assignments made before it, as in Python. *)

From Stdlib Require Import String Ascii NArith ZArith Bool Lia List.
From Stdlib Require Import DecimalString.
Import ListNotations.

(** ** Python values *)

(** A Python [str] is a sequence of Unicode code points. *)
Definition str := list N.

(** An ASCII literal of the source, as a [str]. *)
Definition lit (s : string) : str := map N_of_ascii (list_ascii_of_string s).

Definition nl : str := [10%N].

Arguments lit : simpl never.
Arguments nl : simpl never.

Fixpoint str_eqb (a b : str) : bool :=
  match a, b with
  | [], [] => true
  | x :: a', y :: b' => N.eqb x y && str_eqb a' b'
  | _, _ => false
  end.

(** [str(n)] for a non-negative [int]. *)
Definition str_of_nat (n : nat) : str :=
  lit (NilEmpty.string_of_uint (Nat.to_uint n)).

(** [str.isspace] on one code point (CPython's [_PyUnicode_IsWhitespace]). *)
Definition isspace (c : N) : bool :=
  ((9 <=? c) && (c <=? 13)
   || (28 <=? c) && (c <=? 32)
   || (c =? 133) || (c =? 160) || (c =? 5760)
   || (8192 <=? c) && (c <=? 8202)
   || (c =? 8232) || (c =? 8233) || (c =? 8239) || (c =? 8287)
   || (c =? 12288))%N.

Fixpoint lstrip (s : str) : str :=
  match s with
  | [] => []
  | c :: s' => if isspace c then lstrip s' else s
  end.

Definition rstrip (s : str) : str := rev (lstrip (rev s)).

(** [s.strip()] with no argument. *)
Definition strip (s : str) : str := rstrip (lstrip s).

(** [sep.join(parts)]. *)
Fixpoint join (sep : str) (parts : list str) : str :=
  match parts with
  | [] => []
  | [p] => p
  | p :: rest => p ++ sep ++ join sep rest
  end.

(** The values that occur in the result dictionaries. *)
Inductive value : Type :=
| VStr (s : str)
| VInt (n : Z)
| VBool (b : bool).

(** A [dict] literal, in insertion order. *)
Definition dict := list (str * value).

Fixpoint dict_get (d : dict) (k : str) : option value :=
  match d with
  | [] => None
  | (k', v) :: d' => if str_eqb k' k then Some v else dict_get d' k
  end.

(** ** LangChain data *)

Inductive role : Type := system | human | ai.

(** [BaseMessage]: [msg.type] and [msg.content]. *)
Record BaseMessage : Type := Message { type : role; content : str }.

Definition role_name (r : role) : str :=
  match r with
  | system => lit "system"
  | human => lit "human"
  | ai => lit "ai"
  end.

(** One page of the PDF. *)
Record Document : Type := { page_content : str; page : nat }.

(** Result of a call that may raise; [Raise e] carries [str(e)]. *)
Inductive outcome (A : Type) : Type :=
| Ok (a : A)
| Raise (e : str).
Arguments Ok {A} a.
Arguments Raise {A} e.

(** ** The monad of method bodies

    A computation runs on a state and either returns or raises; in both
    cases it hands on the state it reached. *)

Definition Py (St A : Type) : Type := St -> outcome A * St.

Definition ret {St A} (a : A) : Py St A := fun m => (Ok a, m).

Definition bind {St A B} (c : Py St A) (k : A -> Py St B) : Py St B :=
  fun m =>
    match c m with
    | (Ok a, m') => k a m'
    | (Raise e, m') => (Raise e, m')
    end.

(** [try: body  except Exception as e: handler(str(e))]. *)
Definition try_except {St A} (body : Py St A) (handler : str -> Py St A)
  : Py St A :=
  fun m =>
    match body m with
    | (Ok a, m') => (Ok a, m')
    | (Raise e, m') => handler e m'
    end.

Notation "x <- c ;; k" := (bind c (fun x => k))
  (at level 61, c at next level, right associativity).
Notation "c ;;; k" := (bind c (fun _ => k))
  (at level 61, right associativity).

(** ** The collaborators outside the process *)

Record Externals : Type := {
  World : Type;
  FAISS : Type;
  PyPDFLoader_load : str -> World -> outcome (list Document) * World;
  FAISS_from_documents : list Document -> World -> outcome FAISS * World;
  FAISS_save_local : FAISS -> str -> World -> outcome unit * World;
  FAISS_load_local : str -> World -> outcome FAISS * World;
  FAISS_similarity_search :
    FAISS -> str -> nat -> World -> outcome (list Document) * World;
  OllamaLLM_invoke : list BaseMessage -> World -> outcome str * World;
  os_path_exists : str -> World -> bool;
  os_makedirs : str -> World -> outcome unit * World;
  os_remove : str -> World -> outcome unit * World;
  shutil_rmtree : str -> World -> outcome unit * World
}.

Module Service.
Section Service.

Context {E : Externals}.

(** [vectorstore.as_retriever(search_kwargs={"k": k})]. *)
Record VectorStoreRetriever : Type :=
  { retriever_vectorstore : FAISS E; search_k : nat }.

(** The LCEL chain built by [_create_rag_chain]: it holds the retriever
    object it was built from; the prompt template, [self.llm] and the
    parser are the same for every chain, and the history is read from
    [self] when the chain is invoked. *)
Record RunnableSequence : Type :=
  { chain_retriever : VectorStoreRetriever }.

(** What was called outside the process, in order. *)
Inductive Call : Type :=
| LoadPdf (pdf_path : str)
| BuildIndex (documents : list Document)
| SaveIndex (index : FAISS E) (path : str)
| LoadIndex (path : str)
| Retrieve (index : FAISS E) (query : str) (k : nat)
| Generate (prompt : list BaseMessage)
| Makedirs (path : str)
| Remove (path : str)
| Rmtree (path : str).

(** The fields of a [RAGServiceModern] object. *)
Record RAGServiceModern : Type := {
  vector_db_path : str;
  vectorstore : option (FAISS E);
  retriever : option VectorStoreRetriever;
  chat_history : list BaseMessage;
  rag_chain : option RunnableSequence
}.

Record Machine : Type := {
  self : RAGServiceModern;
  world : World E;
  calls : list Call
}.

(** Method bodies run on the machine. *)
Local Abbreviation M := (Py Machine).

(** Reading and assigning the fields of [self]. *)
Definition get_self : M RAGServiceModern := fun m => (Ok (self m), m).

Definition set_self (s : RAGServiceModern) : M unit :=
  fun m => (Ok tt, {| self := s; world := world m; calls := calls m |}).

Definition set_vectorstore (v : option (FAISS E)) : M unit :=
  s <- get_self ;;
  set_self {| vector_db_path := vector_db_path s; vectorstore := v;
              retriever := retriever s; chat_history := chat_history s;
              rag_chain := rag_chain s |}.

Definition set_retriever (r : option VectorStoreRetriever) : M unit :=
  s <- get_self ;;
  set_self {| vector_db_path := vector_db_path s;
              vectorstore := vectorstore s;
              retriever := r; chat_history := chat_history s;
              rag_chain := rag_chain s |}.

Definition set_rag_chain (c : option RunnableSequence) : M unit :=
  s <- get_self ;;
  set_self {| vector_db_path := vector_db_path s;
              vectorstore := vectorstore s;
              retriever := retriever s; chat_history := chat_history s;
              rag_chain := c |}.

Definition set_messages (h : list BaseMessage) : M unit :=
  s <- get_self ;;
  set_self {| vector_db_path := vector_db_path s;
              vectorstore := vectorstore s;
              retriever := retriever s; chat_history := h;
              rag_chain := rag_chain s |}.

(** A call outside the process: logged, then run on the world. *)
Definition external {A} (c : Call) (f : World E -> outcome A * World E)
  : M A :=
  fun m =>
    let (r, w) := f (world m) in
    (r, {| self := self m; world := w; calls := calls m ++ [c] |}).

(** [os.path.exists] only reads. *)
Definition path_exists (p : str) : M bool :=
  fun m => (Ok (os_path_exists E p (world m)), m).

(** ** [ChatMessageHistory] *)

Definition add_user_message (text : str) : M unit :=
  s <- get_self ;;
  set_messages (chat_history s ++ [Message human text]).

Definition add_ai_message (text : str) : M unit :=
  s <- get_self ;;
  set_messages (chat_history s ++ [Message ai text]).

Definition history_clear : M unit := set_messages [].

(** ** [RAGServiceModern] *)

Definition success : value := VStr (lit "success").
Definition error : value := VStr (lit "error").
Definition warning : value := VStr (lit "warning").

(** The object as [__init__] leaves its fields. *)
Definition fresh_service (path : str) : RAGServiceModern :=
  {| vector_db_path := path; vectorstore := None; retriever := None;
     chat_history := []; rag_chain := None |}.

(** [RAGServiceModern(vector_db_path=path)], started in world [w]: the
    fields are initialised, then the storage directory is created when it
    is missing.  The constructor has no handler: [Raise] means that no
    object was built. *)
Definition __init__ (path : str) (w : World E) : outcome unit * Machine :=
  (ex <- path_exists path ;;
   if negb ex then external (Makedirs path) (os_makedirs E path)
   else ret tt)
    {| self := fresh_service path; world := w; calls := [] |}.

(** The system message of the prompt template, [{context}] filled in. *)
Definition system_prompt (context : str) : str :=
  lit "You are a helpful assistant that answers questions based on the provided context. "
  ++ nl ++
  lit "Use the following pieces of context to answer the question. "
  ++ nl ++
  lit "If you don't know the answer based on the context, say so - don't make up information."
  ++ nl ++ nl ++
  lit "Context: " ++ context.

(** [ChatPromptTemplate.from_messages([("system", ...),
    MessagesPlaceholder("chat_history"), ("human", "{question}")])],
    formatted. *)
Definition prompt_format (context : str) (history : list BaseMessage)
  (question : str) : list BaseMessage :=
  [Message system (system_prompt context)] ++ history
  ++ [Message human question].

Definition format_docs (docs : list Document) : str :=
  join (nl ++ nl) (map page_content docs).

Arguments system_prompt : simpl never.
Arguments prompt_format : simpl never.
Arguments format_docs : simpl never.

(** [retriever.invoke(query)]: similarity search with the retriever's k. *)
Definition retriever_invoke (r : VectorStoreRetriever) (query : str)
  : M (list Document) :=
  external (Retrieve (retriever_vectorstore r) query (search_k r))
    (FAISS_similarity_search E (retriever_vectorstore r) query (search_k r)).

(** [rag_chain.invoke(question)]:
    [{context: retriever | format_docs, question: passthrough,
      chat_history: self.chat_history.messages} | prompt | llm | parser]. *)
Definition chain_invoke (c : RunnableSequence) (question : str) : M str :=
  docs <- retriever_invoke (chain_retriever c) question ;;
  s <- get_self ;;
  let prompt :=
    prompt_format (format_docs docs) (chat_history s) question in
  answer <- external (Generate prompt) (OllamaLLM_invoke E prompt) ;;
  ret answer.

Definition _create_rag_chain : M unit :=
  s <- get_self ;;
  match retriever s with
  | None => ret tt
  | Some r => set_rag_chain (Some {| chain_retriever := r |})
  end.

Definition as_retriever (v : FAISS E) (k : nat) : VectorStoreRetriever :=
  {| retriever_vectorstore := v; search_k := k |}.

Definition process_pdf (pdf_path : str) : M dict :=
  try_except
    (documents <- external (LoadPdf pdf_path) (PyPDFLoader_load E pdf_path) ;;
     v <- external (BuildIndex documents) (FAISS_from_documents E documents) ;;
     set_vectorstore (Some v) ;;;
     s <- get_self ;;
     external (SaveIndex v (vector_db_path s))
       (FAISS_save_local E v (vector_db_path s)) ;;;
     set_retriever (Some (as_retriever v 3)) ;;;
     _create_rag_chain ;;;
     ret [ (lit "status", success);
           (lit "message",
            VStr (lit "PDF processed successfully. Loaded "
                  ++ str_of_nat (length documents) ++ lit " pages."));
           (lit "num_documents", VInt (Z.of_nat (length documents))) ])
    (fun e =>
       ret [ (lit "status", error);
             (lit "message", VStr (lit "Error processing PDF: " ++ e)) ]).

Definition load_existing_vectorstore : M dict :=
  try_except
    (s <- get_self ;;
     ex <- path_exists (vector_db_path s) ;;
     if negb ex then
       ret [ (lit "status", error);
             (lit "message", VStr (lit "No existing vector store found")) ]
     else
       v <- external (LoadIndex (vector_db_path s))
              (FAISS_load_local E (vector_db_path s)) ;;
       set_vectorstore (Some v) ;;;
       set_retriever (Some (as_retriever v 3)) ;;;
       _create_rag_chain ;;;
       ret [ (lit "status", success);
             (lit "message", VStr (lit "Vector store loaded successfully")) ])
    (fun e =>
       ret [ (lit "status", error);
             (lit "message", VStr (lit "Error loading vector store: " ++ e)) ]).

Definition ask_question (question : str) : M dict :=
  s <- get_self ;;
  match rag_chain s with
  | None =>
      ret [ (lit "status", error);
            (lit "message", VStr (lit "Please upload and process a PDF first")) ]
  | Some chain =>
      try_except
        (answer <- chain_invoke chain question ;;
         add_user_message question ;;;
         add_ai_message answer ;;;
         ret [ (lit "status", success);
               (lit "question", VStr question);
               (lit "answer", VStr answer) ])
        (fun e =>
           ret [ (lit "status", error);
                 (lit "message",
                  VStr (lit "Error processing question: " ++ e)) ])
  end.

Definition get_chat_history : M (list dict) :=
  s <- get_self ;;
  ret (map (fun msg => [ (lit "type", VStr (role_name (type msg)));
                         (lit "content", VStr (content msg)) ])
           (chat_history s)).

Definition clear_session : M dict :=
  try_except
    (history_clear ;;;
     set_retriever None ;;;
     set_vectorstore None ;;;
     set_rag_chain None ;;;
     s <- get_self ;;
     ex <- path_exists (vector_db_path s) ;;
     (if ex then
        external (Rmtree (vector_db_path s))
          (shutil_rmtree E (vector_db_path s)) ;;;
        external (Makedirs (vector_db_path s))
          (os_makedirs E (vector_db_path s))
      else ret tt) ;;;
     ret [ (lit "status", success);
           (lit "message", VStr (lit "Session cleared successfully")) ])
    (fun e =>
       ret [ (lit "status", error);
             (lit "message", VStr (lit "Error clearing session: " ++ e)) ]).

Definition delete_pdf (pdf_path : str) : M dict :=
  try_except
    (ex <- path_exists pdf_path ;;
     if ex then
       external (Remove pdf_path) (os_remove E pdf_path) ;;;
       ret [ (lit "status", success);
             (lit "message", VStr (lit "PDF deleted successfully")) ]
     else
       ret [ (lit "status", warning);
             (lit "message", VStr (lit "PDF file not found")) ])
    (fun e =>
       ret [ (lit "status", error);
             (lit "message", VStr (lit "Error deleting PDF: " ++ e)) ]).

Definition isSome {A} (o : option A) : bool :=
  match o with Some _ => true | None => false end.

Definition get_status : M dict :=
  s <- get_self ;;
  ret [ (lit "vectorstore_loaded", VBool (isSome (vectorstore s)));
        (lit "retriever_ready", VBool (isSome (retriever s)));
        (lit "qa_chain_ready", VBool (isSome (rag_chain s)));
        (lit "chat_history_length",
         VInt (Z.of_nat (length (chat_history s)))) ].

End Service.

Arguments VectorStoreRetriever E : clear implicits.
Arguments RunnableSequence E : clear implicits.
Arguments Call E : clear implicits.
Arguments RAGServiceModern E : clear implicits.
Arguments Machine E : clear implicits.

End Service.

(** ** [app.py]: the [/ask] route *)

Module App.
Section App.

Context {E : Externals}.

Local Abbreviation M := (Py (Service.Machine E)).

Record QuestionResponse : Type :=
  { status : str; question : str; answer : str }.

Record HTTPException : Type := { status_code : Z; detail : str }.

(** [result[key]]: [KeyError] when the key is missing. *)
Definition getitem (d : dict) (key : str) : M value :=
  match dict_get d key with
  | Some v => ret v
  | None => fun m => (Raise (lit "KeyError"), m)
  end.

(** A field of a response model declared [str] accepts only a [str]. *)
Definition as_str (v : value) : M str :=
  match v with
  | VStr s => ret s
  | _ => fun m => (Raise (lit "ValidationError"), m)
  end.

Definition value_eqb (a b : value) : bool :=
  match a, b with
  | VStr x, VStr y => str_eqb x y
  | VInt x, VInt y => Z.eqb x y
  | VBool x, VBool y => Bool.eqb x y
  | _, _ => false
  end.

(** The handler of [POST /ask], on [request.question]; [inl] is a raised
    [HTTPException], [inr] the returned model.  [rag_service] is the
    machine's object. *)
Definition ask_question (request_question : str)
  : M (HTTPException + QuestionResponse) :=
  if match request_question with [] => true | _ => false end
     || str_eqb (strip request_question) []
  then
    ret (inl {| status_code := 400;
                detail := lit "Question cannot be empty" |})
  else
    result <- Service.ask_question request_question ;;
    st <- getitem result (lit "status") ;;
    if value_eqb st (VStr (lit "error")) then
      msg <- getitem result (lit "message") ;;
      detail <- as_str msg ;;
      ret (inl {| status_code := 400; detail := detail |})
    else
      st' <- as_str st ;;
      q <- getitem result (lit "question") ;;
      q' <- as_str q ;;
      a <- getitem result (lit "answer") ;;
      a' <- as_str a ;;
      ret (inr {| status := st'; question := q'; answer := a' |}).

(** What the client of the route receives. *)
Inductive HTTPResponse : Type :=
| Response (code : Z) (body : dict).

Definition code_of (r : HTTPResponse) : Z :=
  match r with Response c _ => c end.

(** [QuestionRequest]: [question: str = Field(..., min_length=1)]. *)
Definition QuestionRequest_valid (question : str) : bool :=
  (1 <=? length question)%nat.

(** [POST /ask] with the JSON body [{"question": body_question}], as
    FastAPI serves it: a body that fails the request model is answered
    422 without the handler being run (of the list of errors in its body
    only the message is kept here), an [HTTPException] is answered with
    its own status code and detail, any other exception with 500. *)
Definition post_ask (body_question : str) (m : Service.Machine E)
  : HTTPResponse * Service.Machine E :=
  if negb (QuestionRequest_valid body_question) then
    (Response 422
       [ (lit "detail",
          VStr (lit "String should have at least 1 character")) ], m)
  else
    match ask_question body_question m with
    | (Ok (inl exc), m') =>
        (Response (status_code exc) [ (lit "detail", VStr (detail exc)) ], m')
    | (Ok (inr r), m') =>
        (Response 200 [ (lit "status", VStr (status r));
                        (lit "question", VStr (question r));
                        (lit "answer", VStr (answer r)) ], m')
    | (Raise _, m') =>
        (Response 500 [ (lit "detail", VStr (lit "Internal Server Error")) ],
         m')
    end.

End App.
End App.

(** ** Sessions: sequences of operations on one service object *)

Section Sessions.

Context {E : Externals}.

Import Service.

Inductive Op : Type :=
| ProcessPdf (pdf_path : str)
| LoadExisting
| Ask (question : str)
| GetChatHistory
| ClearSession
| DeletePdf (pdf_path : str)
| GetStatus
| PostAsk (question : str).

Definition exec (o : Op) (m : Machine E) : Machine E :=
  match o with
  | ProcessPdf p => snd (process_pdf p m)
  | LoadExisting => snd (load_existing_vectorstore m)
  | Ask q => snd (ask_question q m)
  | GetChatHistory => snd (get_chat_history m)
  | ClearSession => snd (clear_session m)
  | DeletePdf p => snd (delete_pdf p m)
  | GetStatus => snd (get_status m)
  | PostAsk q => snd (App.post_ask q m)
  end.

Fixpoint run (ops : list Op) (m : Machine E) : Machine E :=
  match ops with
  | [] => m
  | o :: ops' => run ops' (exec o m)
  end.

(** The index is there exactly when the chain is there. *)
Definition consistent (s : RAGServiceModern E) : Prop :=
  rag_chain s <> None <-> vectorstore s <> None.

(** A history made of (human, ai) pairs. *)
Fixpoint paired (h : list BaseMessage) : bool :=
  match h with
  | [] => true
  | Message human _ :: Message ai _ :: h' => paired h'
  | _ => false
  end.

(** A question that is empty or made of whitespace only. *)
Definition blank (q : str) : bool := forallb isspace q.

(** The spec's wording of the context string: the chunk texts, one
    separator between two neighbours, flattened. *)
Fixpoint intersperse (sep : str) (parts : list str) : list str :=
  match parts with
  | [] => []
  | [p] => [p]
  | p :: rest => p :: sep :: intersperse sep rest
  end.

(** The result dictionaries of [ask_question]. *)
Definition no_document : dict :=
  [ (lit "status", error);
    (lit "message", VStr (lit "Please upload and process a PDF first")) ].

Definition generation_error (e : str) : dict :=
  [ (lit "status", error);
    (lit "message", VStr (lit "Error processing question: " ++ e)) ].

Definition answered (question answer : str) : dict :=
  [ (lit "status", success);
    (lit "question", VStr question);
    (lit "answer", VStr answer) ].

(** The result dictionaries of [process_pdf]. *)
Definition processed (n : nat) : dict :=
  [ (lit "status", success);
    (lit "message",
     VStr (lit "PDF processed successfully. Loaded "
           ++ str_of_nat n ++ lit " pages."));
    (lit "num_documents", VInt (Z.of_nat n)) ].

Definition processing_error (e : str) : dict :=
  [ (lit "status", error);
    (lit "message", VStr (lit "Error processing PDF: " ++ e)) ].

(** [self] with a new index and nothing else changed. *)
Definition with_vectorstore (s : RAGServiceModern E) (v : FAISS E)
  : RAGServiceModern E :=
  {| vector_db_path := vector_db_path s; vectorstore := Some v;
     retriever := retriever s; chat_history := chat_history s;
     rag_chain := rag_chain s |}.

(** [self] with index, retriever and chain all built on [v]. *)
Definition ready_on (s : RAGServiceModern E) (v : FAISS E)
  : RAGServiceModern E :=
  {| vector_db_path := vector_db_path s; vectorstore := Some v;
     retriever := Some (as_retriever v 3);
     chat_history := chat_history s;
     rag_chain := Some {| chain_retriever := as_retriever v 3 |} |}.

(** [self] after one more exchange. *)
Definition with_turn (s : RAGServiceModern E) (question answer : str)
  : RAGServiceModern E :=
  {| vector_db_path := vector_db_path s; vectorstore := vectorstore s;
     retriever := retriever s;
     chat_history :=
       chat_history s ++ [Message human question; Message ai answer];
     rag_chain := rag_chain s |}.

(** What one operation can do to the fields of the object. *)
Inductive transition (s : RAGServiceModern E) : RAGServiceModern E -> Prop :=
| t_same : transition s s
| t_index_only (v : FAISS E) : transition s (with_vectorstore s v)
| t_ready (v : FAISS E) : transition s (ready_on s v)
| t_clear : transition s (fresh_service (vector_db_path s))
| t_turn (question answer : str) :
    rag_chain s <> None -> transition s (with_turn s question answer).

(** The result dictionaries of [load_existing_vectorstore] and
    [clear_session]. *)
Definition no_store : dict :=
  [ (lit "status", error);
    (lit "message", VStr (lit "No existing vector store found")) ].

Definition loading_error (e : str) : dict :=
  [ (lit "status", error);
    (lit "message", VStr (lit "Error loading vector store: " ++ e)) ].

Definition loaded : dict :=
  [ (lit "status", success);
    (lit "message", VStr (lit "Vector store loaded successfully")) ].

(** The status report of an empty session. *)
Definition empty_status : dict :=
  [ (lit "vectorstore_loaded", VBool false);
    (lit "retriever_ready", VBool false);
    (lit "qa_chain_ready", VBool false);
    (lit "chat_history_length", VInt 0) ].

(** [as_retriever] is always called with [search_kwargs={"k": 3}]. *)
Definition top3 (s : RAGServiceModern E) : Prop :=
  forall chain, rag_chain s = Some chain ->
                search_k (chain_retriever chain) = 3.

(** Sum of the lengths of the parts. *)
Definition total_length (parts : list str) : nat :=
  fold_right (fun p n => length p + n) 0 parts.

Definition double_newline_separated (texts : list str) : str :=
  concat (intersperse [10%N; 10%N] texts).

End Sessions.

(** ** A small simulated world

    One concrete set of collaborators, used to run the service on
    concrete sessions: a storage directory that may be read-only, an Ollama server that may
    be down, one readable two-page PDF. *)

Module Sim.

Record SimWorld : Type := {
  read_only : bool;
  ollama_up : bool;
  existing : list str;
  saved : option (list Document)
}.

Definition page1 : Document :=
  {| page_content := lit "Rocq is a proof assistant."; page := 0 |}.
Definition page2 : Document :=
  {| page_content := lit "It checks proofs by machine."; page := 1 |}.

Definition report_pdf : str := lit "uploaded_pdfs/report.pdf".

Definition load (pdf_path : str) (w : SimWorld)
  : outcome (list Document) * SimWorld :=
  if str_eqb pdf_path report_pdf then (Ok [page1; page2], w)
  else (Raise (lit "File path is not a valid file or url"), w).

Definition from_documents (documents : list Document) (w : SimWorld)
  : outcome (list Document) * SimWorld :=
  match documents with
  | [] => (Raise (lit "list index out of range"), w)
  | _ => (Ok documents, w)
  end.

Definition save_local (index : list Document) (path : str) (w : SimWorld)
  : outcome unit * SimWorld :=
  if read_only w then (Raise (lit "[Errno 13] Permission denied"), w)
  else (Ok tt, {| read_only := read_only w; ollama_up := ollama_up w;
                  existing := existing w; saved := Some index |}).

Definition load_local (path : str) (w : SimWorld)
  : outcome (list Document) * SimWorld :=
  match saved w with
  | Some index => (Ok index, w)
  | None => (Raise (lit "could not open index.faiss for reading"), w)
  end.

Definition similarity_search (index : list Document) (query : str)
  (k : nat) (w : SimWorld) : outcome (list Document) * SimWorld :=
  (Ok (firstn k index), w).

Definition invoke (prompt : list BaseMessage) (w : SimWorld)
  : outcome str * SimWorld :=
  if ollama_up w then
    (Ok (lit "You asked: "
         ++ content (last prompt (Message human []))), w)
  else (Raise (lit "[Errno 111] Connection refused"), w).

Definition path_exists (p : str) (w : SimWorld) : bool :=
  existsb (str_eqb p) (existing w).

Definition makedirs (p : str) (w : SimWorld) : outcome unit * SimWorld :=
  if read_only w then (Raise (lit "[Errno 13] Permission denied"), w)
  else (Ok tt, {| read_only := read_only w; ollama_up := ollama_up w;
                  existing := p :: existing w; saved := saved w |}).

Definition remove (p : str) (w : SimWorld) : outcome unit * SimWorld :=
  (Ok tt, {| read_only := read_only w; ollama_up := ollama_up w;
             existing := filter (fun x => negb (str_eqb p x)) (existing w);
             saved := saved w |}).

Definition rmtree (p : str) (w : SimWorld) : outcome unit * SimWorld :=
  (Ok tt, {| read_only := read_only w; ollama_up := ollama_up w;
             existing := filter (fun x => negb (str_eqb p x)) (existing w);
             saved := None |}).

Definition externals : Externals :=
  {| World := SimWorld;
     FAISS := list Document;
     PyPDFLoader_load := load;
     FAISS_from_documents := from_documents;
     FAISS_save_local := save_local;
     FAISS_load_local := load_local;
     FAISS_similarity_search := similarity_search;
     OllamaLLM_invoke := invoke;
     os_path_exists := path_exists;
     os_makedirs := makedirs;
     os_remove := remove;
     shutil_rmtree := rmtree |}.

Definition vector_db : str := lit "vector_db".

(** The process just started: the storage directory is there, nothing
    has been ingested. *)
Definition started (ro up : bool) : Service.Machine externals :=
  snd (Service.__init__ (E:=externals) vector_db
         {| read_only := ro; ollama_up := up;
            existing := [vector_db]; saved := None |}).

(** The same after [report.pdf] has been uploaded. *)
Definition ingested (ro up : bool) : Service.Machine externals :=
  snd (Service.process_pdf report_pdf (started ro up)).

Definition what_is_rocq : str := lit "What is Rocq?".

Definition index : list Document := [page1; page2].

Definition chain : Service.RunnableSequence externals :=
  {| Service.chain_retriever := Service.as_retriever (E:=externals) index 3 |}.

End Sim.

(** ** [app.py]: the upload route *)

Module Upload.

(** [s.startswith(prefix)] and [s.endswith(suffix)]. *)
Definition startswith (s prefix : str) : bool :=
  str_eqb (firstn (length prefix) s) prefix.

Definition endswith (s suffix : str) : bool :=
  (length suffix <=? length s)%nat
  && str_eqb (skipn (length s - length suffix) s) suffix.

(** [os.path.join(a, b)] of [posixpath]. *)
Definition os_path_join (a b : str) : str :=
  if startswith b (lit "/") then b
  else if match a with [] => true | _ => false end || endswith a (lit "/")
       then a ++ b
       else a ++ lit "/" ++ b.

(** [str(v)], as an f-string formats a value. *)
Definition format_value (v : value) : str :=
  match v with
  | VStr s => s
  | VInt n => lit (NilEmpty.string_of_int (Z.to_int n))
  | VBool true => lit "True"
  | VBool false => lit "False"
  end.

Definition UPLOAD_DIR : str := lit "uploaded_pdfs".

(** [UploadFile]: the name sent by the client and the bytes. *)
Record UploadFile : Type := { filename : str; file : list N }.

(** [HTTPException(status_code, detail)]; the detail may be any value. *)
Record HTTPException : Type := { status_code : Z; detail : value }.

Record MessageResponse : Type := { status : str; message : str }.

Section Upload.

Context {E : Externals}.

(** [with open(file_path, "wb") as buffer:
       shutil.copyfileobj(file.file, buffer)]: the write of the upload on
    the disk.  It is no collaborator of the service and has no entry in
    the service's call log. *)
Variable copy_upload : str -> list N -> World E -> outcome unit * World E.

(** The module state of [app.py]: the service object and the global
    [current_pdf_path]. *)
Record AppState : Type := {
  rag_service : Service.Machine E;
  current_pdf_path : option str
}.

Local Abbreviation M := (Py AppState).

(** A method of [rag_service], or a call it logs, run from a handler. *)
Definition on_service {A} (c : Py (Service.Machine E) A) : M A :=
  fun a =>
    let (r, m) := c (rag_service a) in
    (r, {| rag_service := m; current_pdf_path := current_pdf_path a |}).

Definition write_file (file_path : str) (content : list N) : M unit :=
  fun a =>
    let m := rag_service a in
    let (r, w) := copy_upload file_path content (Service.world m) in
    (r, {| rag_service :=
             {| Service.self := Service.self m; Service.world := w;
                Service.calls := Service.calls m |};
           current_pdf_path := current_pdf_path a |}).

Definition get_current_pdf_path : M (option str) :=
  fun a => (Ok (current_pdf_path a), a).

Definition set_current_pdf_path (p : option str) : M unit :=
  fun a => (Ok tt, {| rag_service := rag_service a; current_pdf_path := p |}).

(** [result[key]]: [KeyError] when the key is missing. *)
Definition getitem (d : dict) (key : str) : M value :=
  match dict_get d key with
  | Some v => ret v
  | None => fun a => (Raise (lit "KeyError"), a)
  end.

(** [if os.path.exists(p): os.remove(p)]. *)
Definition remove_if_exists (p : str) : M unit :=
  ex <- on_service (Service.path_exists p) ;;
  if ex then
    on_service (Service.external (Service.Remove p) (os_remove E p))
  else ret tt.

(** The handler of [POST /upload-pdf]; [inl] is a raised [HTTPException]
    (one raised in the [try] is re-raised as it is by
    [except HTTPException: raise]), [inr] the returned model.  The
    [finally: await file.close()] closes the client's temporary file and
    is left out. *)
Definition upload_pdf (f : UploadFile)
  : M (HTTPException + MessageResponse) :=
  if negb (endswith (filename f) (lit ".pdf")) then
    ret (inl {| status_code := 400;
                detail :=
                  VStr (lit "Only PDF files are allowed. Please upload a .pdf file.") |})
  else
    try_except
      (let file_path := os_path_join UPLOAD_DIR (filename f) in
       write_file file_path (file f) ;;;
       set_current_pdf_path (Some file_path) ;;;
       result <- on_service (Service.process_pdf file_path) ;;
       st <- getitem result (lit "status") ;;
       if App.value_eqb st (VStr (lit "error")) then
         remove_if_exists file_path ;;;
         set_current_pdf_path None ;;;
         msg <- getitem result (lit "message") ;;
         ret (inl {| status_code := 500; detail := msg |})
       else
         msg <- getitem result (lit "message") ;;
         ret (inr {| status := lit "success";
                     message :=
                       [9989%N] ++ lit " PDF '" ++ filename f
                       ++ lit "' uploaded and processed successfully. "
                       ++ format_value msg |}))
      (fun e =>
         p <- get_current_pdf_path ;;
         match p with
         | Some (c :: path) => remove_if_exists (c :: path)
         | _ => ret tt
         end ;;;
         set_current_pdf_path None ;;;
         ret (inl {| status_code := 500;
                     detail := VStr (lit "Error uploading PDF: " ++ e) |})).

(** The status code the client of [POST /upload-pdf] receives: 200, the
    code of the [HTTPException], or 500 for any other exception. *)
Definition post_upload_pdf (f : UploadFile) (a : AppState)
  : Z * AppState :=
  match upload_pdf f a with
  | (Ok (inl exc), a') => (status_code exc, a')
  | (Ok (inr _), a') => (200%Z, a')
  | (Raise _, a') => (500%Z, a')
  end.

End Upload.

Arguments AppState E : clear implicits.

End Upload.

(** ** [app.py]: the chat-history and health routes, and the API as a whole *)

Module History.

Record ChatMessage : Type := { type : str; content : str }.

Record ChatHistoryResponse : Type := {
  status : str;
  chat_history : list ChatMessage;
  total_messages : Z
}.

Record HealthResponse : Type := { health : str; version : str; service : str }.

(** [GET /health]; the field [status] of the model is [health] here. *)
Definition health_check : HealthResponse :=
  {| health := lit "healthy"; version := lit "2.0.0";
     service := lit "RAG ChatBot API" |}.

Section History.

Context {E : Externals}.

Local Abbreviation M := (Py (Service.Machine E)).

(** [[f(x) for x in l]], stopping at the first exception. *)
Fixpoint for_each {A B : Type} (f : A -> M B) (l : list A) : M (list B) :=
  match l with
  | [] => ret []
  | x :: l' => y <- f x ;; ys <- for_each f l' ;; ret (y :: ys)
  end.

(** The handler of [GET /chat-history]. *)
Definition get_chat_history : M (App.HTTPException + ChatHistoryResponse) :=
  try_except
    (history <- Service.get_chat_history ;;
     chat_messages <-
       for_each
         (fun msg =>
            t <- App.getitem msg (lit "type") ;;
            t' <- App.as_str t ;;
            c <- App.getitem msg (lit "content") ;;
            c' <- App.as_str c ;;
            ret {| type := t'; content := c' |})
         history ;;
     ret (inr {| status := lit "success";
                 chat_history := chat_messages;
                 total_messages := Z.of_nat (length chat_messages) |}))
    (fun e =>
       ret (inl {| App.status_code := 500;
                   App.detail := lit "Error retrieving chat history: " ++ e |})).

End History.
End History.

(** The requests the API serves and what each does to the module state. *)
Module Api.
Section Api.

Context {E : Externals}.

Variable copy_upload : str -> list N -> World E -> outcome unit * World E.

Inductive Request : Type :=
| PostUploadPdf (f : Upload.UploadFile)
| PostAsk (question : str)
| GetChatHistory
| GetHealth.

Definition serve (r : Request) (a : Upload.AppState E) : Upload.AppState E :=
  match r with
  | PostUploadPdf f => snd (Upload.post_upload_pdf copy_upload f a)
  | PostAsk q =>
      {| Upload.rag_service := snd (App.post_ask q (Upload.rag_service a));
         Upload.current_pdf_path := Upload.current_pdf_path a |}
  | GetChatHistory =>
      {| Upload.rag_service :=
           snd (History.get_chat_history (Upload.rag_service a));
         Upload.current_pdf_path := Upload.current_pdf_path a |}
  | GetHealth => a
  end.

Fixpoint serve_all (rs : list Request) (a : Upload.AppState E)
  : Upload.AppState E :=
  match rs with
  | [] => a
  | r :: rs' => serve_all rs' (serve r a)
  end.

(** The module state when [app.py] has been imported: the service built
    by [RAGServiceModern(vector_db_path="vector_db")], no current PDF. *)
Definition startup (m0 : Service.Machine E) : Upload.AppState E :=
  {| Upload.rag_service := m0; Upload.current_pdf_path := None |}.

End Api.
End Api.

(** Saving an upload in the simulated world. *)
Module SimUpload.

Definition copy_upload (file_path : str) (content : list N)
  (w : World Sim.externals) : outcome unit * World Sim.externals :=
  if Sim.read_only w then (Raise (lit "[Errno 13] Permission denied"), w)
  else (Ok tt, {| Sim.read_only := Sim.read_only w;
                  Sim.ollama_up := Sim.ollama_up w;
                  Sim.existing := file_path :: Sim.existing w;
                  Sim.saved := Sim.saved w |}).

Definition report : Upload.UploadFile :=
  {| Upload.filename := lit "report.pdf"; Upload.file := [37%N; 80%N] |}.

Definition notes : Upload.UploadFile :=
  {| Upload.filename := lit "notes.pdf"; Upload.file := [37%N; 80%N] |}.

Definition picture : Upload.UploadFile :=
  {| Upload.filename := lit "picture.PDF"; Upload.file := [37%N; 80%N] |}.

Definition app (ro up : bool) : Upload.AppState Sim.externals :=
  Api.startup (Sim.started ro up).

(** The module state after [report.pdf] has been uploaded. *)
Definition uploaded : Upload.AppState Sim.externals :=
  snd (Upload.upload_pdf copy_upload report (app false true)).

(** The same once the disk has been made read-only from outside. *)
Definition locked : Upload.AppState Sim.externals :=
  let m := Upload.rag_service uploaded in
  let w := Service.world m in
  {| Upload.rag_service :=
       {| Service.self := Service.self m;
          Service.world :=
            {| Sim.read_only := true; Sim.ollama_up := Sim.ollama_up w;
               Sim.existing := Sim.existing w; Sim.saved := Sim.saved w |};
          Service.calls := Service.calls m |};
     Upload.current_pdf_path := Upload.current_pdf_path uploaded |}.

Definition missing_pdf : str := lit "uploaded_pdfs/missing.pdf".

Definition notes_pdf : str := lit "uploaded_pdfs/notes.pdf".

Definition no_such_file : str := lit "File path is not a valid file or url".

Definition denied : str := lit "[Errno 13] Permission denied".

Definition echo : str := lit "You asked: What is Rocq?".

Definition world0 : Sim.SimWorld :=
  {| Sim.read_only := false; Sim.ollama_up := true;
     Sim.existing := [Sim.vector_db]; Sim.saved := None |}.

End SimUpload.

(** A world whose similarity search is broken. *)
Module SimFaulty.

Definition similarity_search (index : list Document) (query : str)
  (k : nat) (w : Sim.SimWorld) : outcome (list Document) * Sim.SimWorld :=
  (Raise (lit "Error in faiss::Index::search"), w).

Definition externals : Externals :=
  {| World := Sim.SimWorld;
     FAISS := list Document;
     PyPDFLoader_load := Sim.load;
     FAISS_from_documents := Sim.from_documents;
     FAISS_save_local := Sim.save_local;
     FAISS_load_local := Sim.load_local;
     FAISS_similarity_search := similarity_search;
     OllamaLLM_invoke := Sim.invoke;
     os_path_exists := Sim.path_exists;
     os_makedirs := Sim.makedirs;
     os_remove := Sim.remove;
     shutil_rmtree := Sim.rmtree |}.

Definition ingested : Service.Machine externals :=
  snd (Service.process_pdf Sim.report_pdf
         (snd (Service.__init__ (E:=externals) Sim.vector_db
                 {| Sim.read_only := false; Sim.ollama_up := true;
                    Sim.existing := [Sim.vector_db]; Sim.saved := None |}))).

Definition chain : Service.RunnableSequence externals :=
  {| Service.chain_retriever :=
       Service.as_retriever (E:=externals) Sim.index 3 |}.

Definition search_error : str := lit "Error in faiss::Index::search".

End SimFaulty.

(** The remaining result dictionaries, and what is read in a call log. *)
Module Results.
Section Results.

Context {E : Externals}.

Definition not_found : dict :=
  [ (lit "status", Service.warning);
    (lit "message", VStr (lit "PDF file not found")) ].

Definition deleted : dict :=
  [ (lit "status", Service.success);
    (lit "message", VStr (lit "PDF deleted successfully")) ].

Definition deleting_error (e : str) : dict :=
  [ (lit "status", Service.error);
    (lit "message", VStr (lit "Error deleting PDF: " ++ e)) ].

Definition cleared : dict :=
  [ (lit "status", Service.success);
    (lit "message", VStr (lit "Session cleared successfully")) ].

Definition clearing_error (e : str) : dict :=
  [ (lit "status", Service.error);
    (lit "message", VStr (lit "Error clearing session: " ++ e)) ].

(** The status report of a session that is ready, by history length. *)
Definition ready_status (n : nat) : dict :=
  [ (lit "vectorstore_loaded", VBool true);
    (lit "retriever_ready", VBool true);
    (lit "qa_chain_ready", VBool true);
    (lit "chat_history_length", VInt (Z.of_nat n)) ].

(** The chain is the one built on the retriever the object holds. *)
Definition chain_on_retriever (s : Service.RAGServiceModern E) : Prop :=
  Service.rag_chain s
  = option_map (fun r => {| Service.chain_retriever := r |})
      (Service.retriever s).

(** Calls that read or remove the stored index. *)
Definition touches_store (c : Service.Call E) : bool :=
  match c with
  | Service.LoadIndex _ | Service.Rmtree _ => true
  | _ => false
  end.

(** Calls of the generation backend. *)
Definition is_generate (c : Service.Call E) : bool :=
  match c with
  | Service.Generate _ => true
  | _ => false
  end.

(** The machine of the service once the world has moved to [w] without
    a logged call (the upload has been written). *)
Definition written (m : Service.Machine E) (w : World E)
  : Service.Machine E :=
  {| Service.self := Service.self m; Service.world := w;
     Service.calls := Service.calls m |}.

(** From [m] to [m']: the call log has been extended without touching
    the stored index, and the history has been extended by whole
    exchanges. *)
Definition grows (m m' : Service.Machine E) : Prop :=
  (exists new,
      Service.calls m' = Service.calls m ++ new
      /\ existsb touches_store new = false)
  /\ (exists turns,
         Service.chat_history (Service.self m')
         = Service.chat_history (Service.self m) ++ turns
         /\ paired turns = true).

(** The message of a successful upload. *)
Definition upload_message (name : str) (n : nat) : str :=
  [9989%N] ++ lit " PDF '" ++ name
  ++ lit "' uploaded and processed successfully. "
  ++ lit "PDF processed successfully. Loaded "
  ++ str_of_nat n ++ lit " pages.".

(** [ChatMessage(type=msg["type"], content=msg["content"])] of a turn. *)
Definition chat_message (msg : BaseMessage) : History.ChatMessage :=
  {| History.type := role_name (type msg);
     History.content := content msg |}.

End Results.
End Results.

(** * Properties *)

Section Properties.

Context {E : Externals}.

Import Service.

(** Unfolding of the monad and of the field accessors. *)
Ltac py_unfold :=
  unfold add_user_message, add_ai_message, history_clear,
    set_vectorstore, set_retriever, set_rag_chain, set_messages,
    _create_rag_chain, retriever_invoke, path_exists, external,
    App.getitem, App.as_str,
    bind, ret, try_except, get_self, set_self in *.

Ltac py := py_unfold; cbn in *.

(** ** Strings *)

Lemma str_eqb_eq (a b : str) : str_eqb a b = true <-> a = b.
Proof.
  revert b; induction a as [|x a IH]; intros [|y b]; cbn; split;
    try congruence; try reflexivity.
  - intros H. apply andb_true_iff in H as [Hx Hab].
    apply N.eqb_eq in Hx. apply IH in Hab. congruence.
  - intros H. injection H as -> ->. rewrite N.eqb_refl.
    now apply IH.
Qed.

Lemma lstrip_nil_iff (s : str) : lstrip s = [] <-> blank s = true.
Proof.
  unfold blank. induction s as [|c s IH]; cbn.
  - tauto.
  - destruct (isspace c); cbn.
    + exact IH.
    + split; discriminate.
Qed.

Lemma blank_lstrip (s : str) : blank s = true -> lstrip s = [].
Proof. apply lstrip_nil_iff. Qed.

(** [strip] leaves nothing exactly of the strings made of whitespace. *)
Lemma strip_nil_iff (s : str) : strip s = [] <-> blank s = true.
Proof.
  unfold strip, rstrip. split.
  - intros H.
    destruct (lstrip s) as [|c t] eqn:Hl.
    + now apply lstrip_nil_iff.
    + exfalso.
      (* the first character kept by [lstrip] is not a space, so the
         reversed remainder cannot be stripped away *)
      assert (Hc : isspace c = false).
      { clear H. induction s as [|d s IH]; cbn in Hl; [discriminate|].
        destruct (isspace d) eqn:Hd; [now apply IH|].
        injection Hl as -> _. exact Hd. }
      assert (Hne : lstrip (rev (c :: t)) <> []).
      { cbn [rev]. generalize (rev t). intros u.
        induction u as [|d u IH]; cbn.
        - rewrite Hc. discriminate.
        - destruct (isspace d); [exact IH | discriminate]. }
      apply Hne. destruct (lstrip (rev (c :: t))) as [|x u]; [reflexivity|].
      cbn in H. destruct (rev u); discriminate.
  - intros H. rewrite (blank_lstrip s H). reflexivity.
Qed.

(** ** Asking *)

(** The three ways [ask_question] can end, by what happened outside. *)
Lemma ask_question_cases (question : str) (m : Machine E) :
  match rag_chain (self m) with
  | None => ask_question question m = (Ok no_document, m)
  | Some chain =>
      let r := chain_retriever chain in
      let idx := retriever_vectorstore r in
      let log1 := calls m ++ [Retrieve idx question (search_k r)] in
      match FAISS_similarity_search E idx question (search_k r) (world m) with
      | (Raise e, w1) =>
          ask_question question m =
          (Ok (generation_error e),
           {| self := self m; world := w1; calls := log1 |})
      | (Ok docs, w1) =>
          let prompt :=
            prompt_format (format_docs docs) (chat_history (self m))
              question in
          let log2 := log1 ++ [Generate prompt] in
          match OllamaLLM_invoke E prompt w1 with
          | (Raise e, w2) =>
              ask_question question m =
              (Ok (generation_error e),
               {| self := self m; world := w2; calls := log2 |})
          | (Ok answer, w2) =>
              ask_question question m =
              (Ok (answered question answer),
               {| self :=
                    {| vector_db_path := vector_db_path (self m);
                       vectorstore := vectorstore (self m);
                       retriever := retriever (self m);
                       chat_history :=
                         chat_history (self m)
                         ++ [Message human question; Message ai answer];
                       rag_chain := rag_chain (self m) |};
                  world := w2; calls := log2 |})
          end
      end
  end.
Proof.
  unfold ask_question, chain_invoke. py.
  destruct m as [s w log]; cbn.
  destruct (rag_chain s) as [chain|] eqn:Hc; cbn; [|reflexivity].
  destruct (FAISS_similarity_search E _ _ _ w) as [[docs|e] w1]; cbn;
    [|reflexivity].
  destruct (OllamaLLM_invoke E _ w1) as [[answer|e] w2]; cbn;
    [|reflexivity].
  rewrite <- app_assoc, Hc. reflexivity.
Qed.

(** C1. A question asked while no chain exists ([rag_chain is None]: no
    document has been ingested) is answered with the error "Please upload
    and process a PDF first"; the machine is left as it was: nothing is
    called outside the process (in particular not the generation
    backend) and the history is the same. *)
Theorem ask_question_without_document (question : str) (m : Machine E) :
  rag_chain (self m) = None ->
  ask_question question m = (Ok no_document, m)
  /\ dict_get no_document (lit "status") = Some error
  /\ calls (snd (ask_question question m)) = calls m
  /\ (forall prompt,
         In (Generate prompt) (calls (snd (ask_question question m))) ->
         In (Generate prompt) (calls m))
  /\ chat_history (self (snd (ask_question question m)))
     = chat_history (self m).
Proof.
  intros Hnone.
  pose proof (ask_question_cases question m) as H.
  rewrite Hnone in H. rewrite H. cbn [snd].
  repeat split; auto.
Qed.

Lemma status_of_error (d : dict) (v : value) :
  dict_get ((lit "status", v) :: d) (lit "status") = Some v.
Proof. reflexivity. Qed.

Lemma error_is_not_success (d : dict) :
  dict_get ((lit "status", error) :: d) (lit "status") <> Some success.
Proof. rewrite status_of_error. intros H. cbv in H. discriminate. Qed.

(** C3. When [ask_question] reports success, the history is the former
    history followed by the human turn carrying the question and the ai
    turn carrying the answer that is returned: two more entries, the
    former ones untouched. *)
Theorem ask_question_success_appends
  (question : str) (m m' : Machine E) (d : dict) :
  ask_question question m = (Ok d, m') ->
  dict_get d (lit "status") = Some success ->
  exists answer,
    d = answered question answer
    /\ dict_get d (lit "question") = Some (VStr question)
    /\ dict_get d (lit "answer") = Some (VStr answer)
    /\ chat_history (self m')
       = chat_history (self m)
         ++ [Message human question; Message ai answer]
    /\ length (chat_history (self m'))
       = length (chat_history (self m)) + 2
    /\ firstn (length (chat_history (self m))) (chat_history (self m'))
       = chat_history (self m).
Proof.
  intros Hrun Hst.
  pose proof (ask_question_cases question m) as H.
  destruct (rag_chain (self m)) as [chain|].
  - cbv zeta in H.
    destruct (FAISS_similarity_search E _ _ _ _) as [[docs|e] w1].
    + destruct (OllamaLLM_invoke E _ w1) as [[answer|e] w2].
      * rewrite H in Hrun. injection Hrun as <- <-.
        exists answer. cbn [self chat_history].
        repeat split.
        -- rewrite length_app. reflexivity.
        -- rewrite firstn_app, firstn_all, Nat.sub_diag. cbn.
           apply app_nil_r.
      * rewrite H in Hrun. injection Hrun as <- <-.
        now apply error_is_not_success in Hst.
    + rewrite H in Hrun. injection Hrun as <- <-.
      now apply error_is_not_success in Hst.
  - rewrite H in Hrun. injection Hrun as <- <-.
    now apply error_is_not_success in Hst.
Qed.

(** An answer is produced as soon as retrieval and generation return. *)
Lemma ask_question_succeeds
  (question : str) (m : Machine E) (chain : RunnableSequence E)
  (docs : list Document) (w1 w2 : World E) (answer : str) :
  rag_chain (self m) = Some chain ->
  FAISS_similarity_search E (retriever_vectorstore (chain_retriever chain))
    question (search_k (chain_retriever chain)) (world m) = (Ok docs, w1) ->
  OllamaLLM_invoke E
    (prompt_format (format_docs docs) (chat_history (self m)) question) w1
  = (Ok answer, w2) ->
  fst (ask_question question m) = Ok (answered question answer).
Proof.
  intros Hc Hs Hg.
  pose proof (ask_question_cases question m) as H.
  rewrite Hc in H. cbv zeta in H. rewrite Hs, Hg in H.
  now rewrite H.
Qed.

(** C5. When the generation backend raises while a question is answered,
    [ask_question] returns (it does not raise) the error dictionary
    "Error processing question: ..." carrying the backend's message, and
    no field of the object changes: the history is the one before the
    call. *)
Theorem ask_question_generation_failure
  (question : str) (m : Machine E) (chain : RunnableSequence E)
  (docs : list Document) (w1 w2 : World E) (e : str) :
  rag_chain (self m) = Some chain ->
  FAISS_similarity_search E (retriever_vectorstore (chain_retriever chain))
    question (search_k (chain_retriever chain)) (world m) = (Ok docs, w1) ->
  OllamaLLM_invoke E
    (prompt_format (format_docs docs) (chat_history (self m)) question) w1
  = (Raise e, w2) ->
  exists m',
    ask_question question m = (Ok (generation_error e), m')
    /\ dict_get (generation_error e) (lit "status") = Some error
    /\ dict_get (generation_error e) (lit "message")
       = Some (VStr (lit "Error processing question: " ++ e))
    /\ self m' = self m
    /\ chat_history (self m') = chat_history (self m).
Proof.
  intros Hc Hs Hg.
  pose proof (ask_question_cases question m) as H.
  rewrite Hc in H. cbv zeta in H. rewrite Hs, Hg in H.
  eexists. split; [exact H|]. cbn [self]. repeat split.
Qed.

(** Whatever happens outside, [ask_question] returns a dictionary, and a
    call that does not report success leaves the object as it was. *)
Lemma ask_question_returns (question : str) (m : Machine E) :
  exists d, fst (ask_question question m) = Ok d
            /\ (dict_get d (lit "status") = Some success
                \/ dict_get d (lit "status") = Some error
                   /\ self (snd (ask_question question m)) = self m).
Proof.
  pose proof (ask_question_cases question m) as H.
  destruct (rag_chain (self m)) as [chain|].
  - cbv zeta in H.
    destruct (FAISS_similarity_search E _ _ _ _) as [[docs|e] w1].
    + destruct (OllamaLLM_invoke E _ w1) as [[answer|e] w2];
        rewrite H; eexists; (split; [reflexivity|]);
        [left | right]; repeat split.
    + rewrite H; eexists; (split; [reflexivity|]); right; repeat split.
  - rewrite H; eexists; (split; [reflexivity|]); right; repeat split.
Qed.

(** ** Ingesting *)

(** The four ways [process_pdf] can end, by what happened outside. *)
Lemma process_pdf_cases (pdf_path : str) (m : Machine E) :
  let log1 := calls m ++ [LoadPdf pdf_path] in
  match PyPDFLoader_load E pdf_path (world m) with
  | (Raise e, w1) =>
      process_pdf pdf_path m =
      (Ok (processing_error e),
       {| self := self m; world := w1; calls := log1 |})
  | (Ok documents, w1) =>
      let log2 := log1 ++ [BuildIndex documents] in
      match FAISS_from_documents E documents w1 with
      | (Raise e, w2) =>
          process_pdf pdf_path m =
          (Ok (processing_error e),
           {| self := self m; world := w2; calls := log2 |})
      | (Ok v, w2) =>
          let log3 := log2 ++ [SaveIndex v (vector_db_path (self m))] in
          match FAISS_save_local E v (vector_db_path (self m)) w2 with
          | (Raise e, w3) =>
              process_pdf pdf_path m =
              (Ok (processing_error e),
               {| self := with_vectorstore (self m) v;
                  world := w3; calls := log3 |})
          | (Ok _, w3) =>
              process_pdf pdf_path m =
              (Ok (processed (length documents)),
               {| self := ready_on (self m) v;
                  world := w3; calls := log3 |})
          end
      end
  end.
Proof.
  unfold process_pdf. py.
  destruct (PyPDFLoader_load E pdf_path (world m)) as [[documents|e] w1];
    cbn; [|reflexivity].
  destruct (FAISS_from_documents E documents w1) as [[v|e] w2];
    cbn; [|reflexivity].
  destruct (FAISS_save_local E v _ w2) as [[[]|e] w3]; cbn; reflexivity.
Qed.

(** C7. A [process_pdf] that reports success has replaced index,
    retriever and chain by ones built on the new index, and has left the
    conversation history as it was. *)
Theorem process_pdf_keeps_history
  (pdf_path : str) (m m' : Machine E) (d : dict) :
  process_pdf pdf_path m = (Ok d, m') ->
  dict_get d (lit "status") = Some success ->
  chat_history (self m') = chat_history (self m)
  /\ exists v, self m' = ready_on (self m) v.
Proof.
  intros Hrun Hst.
  pose proof (process_pdf_cases pdf_path m) as H. cbv zeta in H.
  destruct (PyPDFLoader_load E _ _) as [[documents|e] w1].
  - destruct (FAISS_from_documents E _ _) as [[v|e] w2].
    + destruct (FAISS_save_local E _ _ _) as [[[]|e] w3];
        rewrite H in Hrun; injection Hrun as <- <-.
      * split; [reflexivity | now exists v].
      * now apply error_is_not_success in Hst.
    + rewrite H in Hrun; injection Hrun as <- <-.
      now apply error_is_not_success in Hst.
  - rewrite H in Hrun; injection Hrun as <- <-.
    now apply error_is_not_success in Hst.
Qed.

(** No call of [process_pdf], successful or not, touches the history. *)
Lemma process_pdf_history (pdf_path : str) (m : Machine E) :
  chat_history (self (snd (process_pdf pdf_path m)))
  = chat_history (self m).
Proof.
  pose proof (process_pdf_cases pdf_path m) as H. cbv zeta in H.
  destruct (PyPDFLoader_load E _ _) as [[documents|e] w1].
  - destruct (FAISS_from_documents E _ _) as [[v|e] w2].
    + destruct (FAISS_save_local E _ _ _) as [[[]|e] w3];
        rewrite H; reflexivity.
    + rewrite H; reflexivity.
  - rewrite H; reflexivity.
Qed.

Lemma load_existing_vectorstore_cases (m : Machine E) :
  let path := vector_db_path (self m) in
  if os_path_exists E path (world m) then
    let log1 := calls m ++ [LoadIndex path] in
    match FAISS_load_local E path (world m) with
    | (Raise e, w1) =>
        load_existing_vectorstore m =
        (Ok (loading_error e),
         {| self := self m; world := w1; calls := log1 |})
    | (Ok v, w1) =>
        load_existing_vectorstore m =
        (Ok loaded,
         {| self := ready_on (self m) v; world := w1; calls := log1 |})
    end
  else load_existing_vectorstore m = (Ok no_store, m).
Proof.
  unfold load_existing_vectorstore. py.
  destruct (os_path_exists E _ _); cbn; [|reflexivity].
  destruct (FAISS_load_local E _ _) as [[v|e] w1]; cbn; reflexivity.
Qed.

(** ** Clearing *)

(** Whatever the disk does, [clear_session] returns a dictionary, and the
    fields of the object are those of a new object on the same path. *)
Lemma clear_session_self (m : Machine E) :
  (exists d, fst (clear_session m) = Ok d)
  /\ self (snd (clear_session m)) = fresh_service (vector_db_path (self m)).
Proof.
  unfold clear_session. py.
  destruct (os_path_exists E _ _); cbn.
  - destruct (shutil_rmtree E _ _) as [[[]|e] w1]; cbn.
    + destruct (os_makedirs E _ _) as [[[]|e] w2]; cbn; eauto.
    + eauto.
  - eauto.
Qed.

(** C6. [clear_session] is idempotent on the session (the fields of the
    object): a second run leaves them as the first did, namely those of a
    new object; and [get_status], run after [clear_session] from any
    state, reports no index, no retriever, no chain and a history of
    length 0, without changing anything. *)
Theorem clear_session_idempotent_and_empty (m : Machine E) :
  let m1 := snd (clear_session m) in
  let m2 := snd (clear_session m1) in
  self m2 = self m1
  /\ self m1 = fresh_service (vector_db_path (self m))
  /\ get_status m1 = (Ok empty_status, m1)
  /\ dict_get empty_status (lit "vectorstore_loaded") = Some (VBool false)
  /\ dict_get empty_status (lit "retriever_ready") = Some (VBool false)
  /\ dict_get empty_status (lit "qa_chain_ready") = Some (VBool false)
  /\ dict_get empty_status (lit "chat_history_length") = Some (VInt 0).
Proof.
  cbv zeta.
  destruct (clear_session_self m) as [_ H1].
  destruct (clear_session_self (snd (clear_session m))) as [_ H2].
  split; [|split; [|split]].
  - rewrite H2, H1. reflexivity.
  - exact H1.
  - unfold get_status. py. rewrite H1. reflexivity.
  - repeat split.
Qed.

(** ** One operation at a time *)

Lemma ask_question_transition (question : str) (m : Machine E) :
  self (snd (ask_question question m)) = self m
  \/ exists answer,
       rag_chain (self m) <> None
       /\ self (snd (ask_question question m))
          = with_turn (self m) question answer.
Proof.
  pose proof (ask_question_cases question m) as H.
  destruct (rag_chain (self m)) as [chain|] eqn:Hc.
  - cbv zeta in H.
    destruct (FAISS_similarity_search E _ _ _ _) as [[docs|e] w1].
    + destruct (OllamaLLM_invoke E _ w1) as [[answer|e] w2]; rewrite H.
      * right. exists answer. split; [discriminate|].
        unfold with_turn. rewrite Hc. reflexivity.
      * now left.
    + rewrite H. now left.
  - rewrite H. now left.
Qed.

(** The route changes the machine only through the service's
    [ask_question]. *)
Lemma post_ask_state (question : str) (m : Machine E) :
  snd (App.post_ask question m) = m
  \/ snd (App.post_ask question m) = snd (ask_question question m).
Proof.
  unfold App.post_ask.
  destruct (negb _); [now left|].
  unfold App.ask_question.
  destruct (_ || _); [now left|].
  right. unfold bind at 1.
  destruct (ask_question question m) as [[d|e] m1]; [|reflexivity].
  py.
  destruct (dict_get d (lit "status")) as [st|]; cbn; [|reflexivity].
  destruct (App.value_eqb st _); cbn.
  - destruct (dict_get d (lit "message")) as [[]|]; reflexivity.
  - destruct st; cbn; try reflexivity.
    destruct (dict_get d (lit "question")) as [[]|]; cbn; try reflexivity.
    destruct (dict_get d (lit "answer")) as [[]|]; reflexivity.
Qed.

Lemma delete_pdf_self (pdf_path : str) (m : Machine E) :
  self (snd (delete_pdf pdf_path m)) = self m.
Proof.
  unfold delete_pdf. py.
  destruct (os_path_exists E _ _); cbn; [|reflexivity].
  destruct (os_remove E _ _) as [[[]|e] w1]; reflexivity.
Qed.

Lemma exec_transition (o : Op) (m : Machine E) :
  transition (self m) (self (exec o m)).
Proof.
  destruct o as [p| |q| | |p| |q]; cbn [exec].
  - pose proof (process_pdf_cases p m) as H. cbv zeta in H.
    destruct (PyPDFLoader_load E _ _) as [[documents|e] w1].
    + destruct (FAISS_from_documents E _ _) as [[v|e] w2].
      * destruct (FAISS_save_local E _ _ _) as [[[]|e] w3];
          rewrite H; constructor.
      * rewrite H; constructor.
    + rewrite H; constructor.
  - pose proof (load_existing_vectorstore_cases m) as H. cbv zeta in H.
    destruct (os_path_exists E _ _).
    + destruct (FAISS_load_local E _ _) as [[v|e] w1];
        rewrite H; constructor.
    + rewrite H; constructor.
  - destruct (ask_question_transition q m) as [H|[a [Hc H]]];
      rewrite H; now constructor.
  - constructor.
  - destruct (clear_session_self m) as [_ H]. rewrite H. constructor.
  - rewrite delete_pdf_self. constructor.
  - constructor.
  - destruct (post_ask_state q m) as [H|H]; rewrite H; [constructor|].
    destruct (ask_question_transition q m) as [H'|[a [Hc H']]];
      rewrite H'; now constructor.
Qed.

Lemma init_self (path : str) (w : World E) :
  self (snd (__init__ path w)) = fresh_service path.
Proof.
  unfold __init__. py.
  destruct (os_path_exists E path w); cbn; [reflexivity|].
  destruct (os_makedirs E path w) as [[[]|e] w1]; reflexivity.
Qed.

(** What one operation can do to the history: nothing, empty it
    ([clear_session]), or append the two turns of an answered question. *)
Lemma exec_history (o : Op) (m : Machine E) :
  chat_history (self (exec o m)) = chat_history (self m)
  \/ (o = ClearSession /\ chat_history (self (exec o m)) = [])
  \/ (exists question answer,
        (o = Ask question \/ o = PostAsk question)
        /\ chat_history (self (exec o m))
           = chat_history (self m)
             ++ [Message human question; Message ai answer]).
Proof.
  destruct o as [p| |q| | |p| |q]; cbn [exec].
  - left. apply process_pdf_history.
  - left. pose proof (load_existing_vectorstore_cases m) as H.
    cbv zeta in H.
    destruct (os_path_exists E _ _).
    + destruct (FAISS_load_local E _ _) as [[v|e] w1]; rewrite H;
        reflexivity.
    + rewrite H; reflexivity.
  - destruct (ask_question_transition q m) as [H|[a [_ H]]]; rewrite H.
    + now left.
    + right; right. exists q, a. split; [now left | reflexivity].
  - now left.
  - right; left. split; [reflexivity|].
    destruct (clear_session_self m) as [_ H]. rewrite H. reflexivity.
  - left. now rewrite delete_pdf_self.
  - now left.
  - destruct (post_ask_state q m) as [H|H]; rewrite H; [now left|].
    destruct (ask_question_transition q m) as [H'|[a [_ H']]]; rewrite H'.
    + now left.
    + right; right. exists q, a. split; [now right | reflexivity].
Qed.

(** ** The shape of the history *)

Lemma list_pair_ind {A : Type} (P : list A -> Prop) :
  P [] -> (forall x, P [x]) -> (forall x y l, P l -> P (x :: y :: l)) ->
  forall l, P l.
Proof.
  intros H0 H1 H2. fix IH 1.
  intros [|x [|y l]]; [exact H0 | apply H1 | apply H2, IH].
Qed.

Lemma paired_app (h1 h2 : list BaseMessage) :
  paired h1 = true -> paired (h1 ++ h2) = paired h2.
Proof.
  induction h1 as [|x|x y h IH] using list_pair_ind; cbn.
  - reflexivity.
  - destruct x as [[] ?]; discriminate.
  - destruct x as [[] ?]; try discriminate.
    destruct y as [[] ?]; try discriminate. exact IH.
Qed.

Lemma paired_even (h : list BaseMessage) :
  paired h = true -> Nat.even (length h) = true.
Proof.
  induction h as [|x|x y h IH] using list_pair_ind; cbn.
  - reflexivity.
  - destruct x as [[] ?]; discriminate.
  - destruct x as [[] ?]; try discriminate.
    destruct y as [[] ?]; try discriminate. exact IH.
Qed.

(** [paired], position by position: humans at the even places, the
    assistant at the odd ones. *)
Lemma paired_nth (h : list BaseMessage) :
  paired h = true ->
  forall i msg, nth_error h i = Some msg ->
                type msg = if Nat.even i then human else ai.
Proof.
  induction h as [|x|x y h IH] using list_pair_ind; cbn.
  - intros _ [|i] msg; discriminate.
  - destruct x as [[] ?]; discriminate.
  - destruct x as [[] c]; try discriminate.
    destruct y as [[] c']; try discriminate.
    intros Hp [|[|i]] msg; cbn.
    + intros [= <-]; reflexivity.
    + intros [= <-]; reflexivity.
    + apply (IH Hp).
Qed.

Lemma transition_paired (s s' : RAGServiceModern E) :
  transition s s' -> paired (chat_history s) = true ->
  paired (chat_history s') = true.
Proof.
  intros [ |v|v| |q a Hc] Hp; cbn; auto.
  rewrite paired_app; auto.
Qed.

Lemma run_paired (ops : list Op) (m : Machine E) :
  paired (chat_history (self m)) = true ->
  paired (chat_history (self (run ops m))) = true.
Proof.
  revert m. induction ops as [|o ops IH]; intros m Hp; cbn; [exact Hp|].
  apply IH. eapply transition_paired; [apply exec_transition | exact Hp].
Qed.

(** C10. In every state reached from a newly built object by any
    sequence of operations, the history is made of (human, ai) pairs: its
    length is even, the even places hold human turns and the odd places
    ai turns.  An operation changes the history in two ways only:
    [clear_session] empties it, and an answered question appends its two
    turns. *)
Theorem history_is_paired
  (path : str) (w : World E) (m0 : Machine E) (ops : list Op) :
  __init__ path w = (Ok tt, m0) ->
  let m := run ops m0 in
  paired (chat_history (self m)) = true
  /\ Nat.even (length (chat_history (self m))) = true
  /\ (forall i msg, nth_error (chat_history (self m)) i = Some msg ->
                    type msg = if Nat.even i then human else ai)
  /\ (forall o,
         chat_history (self (exec o m)) = chat_history (self m)
         \/ (o = ClearSession /\ chat_history (self (exec o m)) = [])
         \/ (exists question answer,
               (o = Ask question \/ o = PostAsk question)
               /\ chat_history (self (exec o m))
                  = chat_history (self m)
                    ++ [Message human question; Message ai answer])).
Proof.
  intros Hinit. cbv zeta.
  assert (Hp : paired (chat_history (self (run ops m0))) = true).
  { apply run_paired.
    pose proof (init_self path w) as H0. rewrite Hinit in H0. cbn in H0.
    rewrite H0. reflexivity. }
  split; [exact Hp|]. split; [now apply paired_even|].
  split; [now apply paired_nth|]. intros o. apply exec_history.
Qed.

(** ** Index and chain *)

Lemma consistent_fresh (path : str) :
  consistent (E:=E) (fresh_service path).
Proof. unfold consistent; cbn. tauto. Qed.

(** Every way an operation can end keeps "chain iff index", except the
    one that stores a new index and stops. *)
Lemma transition_consistent (s s' : RAGServiceModern E) :
  transition s s' -> consistent s ->
  consistent s' \/ exists v, s' = with_vectorstore s v.
Proof.
  intros [ |v|v| |q a Hc] H.
  - now left.
  - right. now exists v.
  - left. unfold consistent; cbn. split; discriminate.
  - left. apply consistent_fresh.
  - left. exact H.
Qed.

(** Every operation but [process_pdf] keeps "chain iff index". *)
Lemma exec_consistent (o : Op) (m : Machine E) :
  (forall p, o <> ProcessPdf p) ->
  consistent (self m) -> consistent (self (exec o m)).
Proof.
  intros Ho H.
  destruct o as [p| |q| | |p| |q]; cbn [exec].
  - now destruct (Ho p).
  - pose proof (load_existing_vectorstore_cases m) as Hl. cbv zeta in Hl.
    destruct (os_path_exists E _ _).
    + destruct (FAISS_load_local E _ _) as [[v|e] w1]; rewrite Hl; cbn;
        [|exact H].
      unfold consistent; cbn. split; discriminate.
    + rewrite Hl; exact H.
  - destruct (ask_question_transition q m) as [Hq|[a [_ Hq]]]; rewrite Hq;
      exact H.
  - exact H.
  - destruct (clear_session_self m) as [_ Hc]. rewrite Hc.
    apply consistent_fresh.
  - now rewrite delete_pdf_self.
  - exact H.
  - destruct (post_ask_state q m) as [Hs|Hs]; rewrite Hs; [exact H|].
    destruct (ask_question_transition q m) as [Hq|[a [_ Hq]]]; rewrite Hq;
      exact H.
Qed.

(** [process_pdf] keeps it too, unless saving the new index raises. *)
Lemma process_pdf_consistent (pdf_path : str) (m : Machine E) :
  consistent (self m) ->
  consistent (self (snd (process_pdf pdf_path m)))
  \/ exists documents w1 v w2 e w3,
       PyPDFLoader_load E pdf_path (world m) = (Ok documents, w1)
       /\ FAISS_from_documents E documents w1 = (Ok v, w2)
       /\ FAISS_save_local E v (vector_db_path (self m)) w2 = (Raise e, w3)
       /\ self (snd (process_pdf pdf_path m)) = with_vectorstore (self m) v.
Proof.
  intros Hc.
  pose proof (process_pdf_cases pdf_path m) as H. cbv zeta in H.
  destruct (PyPDFLoader_load E _ _) as [[documents|e] w1] eqn:H1.
  - destruct (FAISS_from_documents E _ _) as [[v|e] w2] eqn:H2.
    + destruct (FAISS_save_local E _ _ _) as [[[]|e] w3] eqn:H3;
        rewrite H; cbn.
      * left. unfold consistent; cbn. split; discriminate.
      * right. exists documents, w1, v, w2, e, w3. auto.
    + rewrite H; now left.
  - rewrite H; now left.
Qed.

Lemma transition_top3 (s s' : RAGServiceModern E) :
  transition s s' -> top3 s -> top3 s'.
Proof.
  unfold top3. intros [ |v|v| |q a Hc] H chain; cbn; auto.
  - intros [= <-]. reflexivity.
  - discriminate.
Qed.

Lemma run_top3 (ops : list Op) (m : Machine E) :
  top3 (self m) -> top3 (self (run ops m)).
Proof.
  revert m. induction ops as [|o ops IH]; intros m Hp; cbn; [exact Hp|].
  apply IH. eapply transition_top3; [apply exec_transition | exact Hp].
Qed.

(** ** Retrieval and the context string *)

Lemma join_intersperse (sep : str) (parts : list str) :
  join sep parts = concat (intersperse sep parts).
Proof.
  induction parts as [|p [|p' rest] IH]; cbn.
  - reflexivity.
  - now rewrite app_nil_r.
  - cbn in IH. now rewrite IH.
Qed.

Lemma format_docs_spec (docs : list Document) :
  format_docs docs = double_newline_separated (map page_content docs).
Proof. unfold format_docs, double_newline_separated. apply join_intersperse. Qed.

(** Nothing is cut and nothing is merged: the context is as long as the
    texts together plus two characters between neighbours. *)
Lemma double_newline_separated_length (texts : list str) :
  length (double_newline_separated texts)
  = total_length texts + 2 * (length texts - 1).
Proof.
  unfold double_newline_separated.
  induction texts as [|p [|p' rest] IH]; cbn.
  - reflexivity.
  - rewrite app_nil_r. lia.
  - cbn in IH. rewrite length_app. cbn [length]. rewrite IH. lia.
Qed.

(** C8. In every state reached from a newly built object, a question that
    finds a chain is sent as it is to the similarity search of the
    chain's index with k = 3, and the prompt handed to the generation
    backend carries as context the texts of the returned chunks, in the
    order returned, joined by two newlines: all of them, each once per
    occurrence. *)
Theorem retrieval_and_context
  (path : str) (w : World E) (m0 : Machine E) (ops : list Op)
  (question : str) (chain : RunnableSequence E) :
  __init__ path w = (Ok tt, m0) ->
  rag_chain (self (run ops m0)) = Some chain ->
  let m := run ops m0 in
  let idx := retriever_vectorstore (chain_retriever chain) in
  match FAISS_similarity_search E idx question 3 (world m) with
  | (Ok docs, _) =>
      let context := double_newline_separated (map page_content docs) in
      calls (snd (ask_question question m))
      = calls m
        ++ [Retrieve idx question 3;
            Generate
              (prompt_format context (chat_history (self m)) question)]
      /\ prompt_format context (chat_history (self m)) question
         = [Message system (system_prompt context)]
           ++ chat_history (self m) ++ [Message human question]
      /\ length context
         = total_length (map page_content docs) + 2 * (length docs - 1)
  | (Raise _, _) =>
      calls (snd (ask_question question m))
      = calls m ++ [Retrieve idx question 3]
  end.
Proof.
  intros Hinit Hc. cbv zeta.
  assert (Hk : search_k (chain_retriever chain) = 3).
  { apply (run_top3 ops m0); [|exact Hc].
    pose proof (init_self path w) as H0. rewrite Hinit in H0. cbn in H0.
    rewrite H0. intros c; discriminate. }
  pose proof (ask_question_cases question (run ops m0)) as H.
  rewrite Hc in H. cbv zeta in H. rewrite Hk in H.
  destruct (FAISS_similarity_search E _ _ _ _) as [[docs|e] w1].
  - rewrite <- format_docs_spec.
    split; [|split].
    + destruct (OllamaLLM_invoke E _ w1) as [[answer|e] w2];
        rewrite H; cbn [snd calls]; now rewrite <- app_assoc.
    + reflexivity.
    + rewrite format_docs_spec, double_newline_separated_length.
      now rewrite length_map.
  - now rewrite H.
Qed.

(** ** The route *)

(** What the service can hand to the route. *)
Lemma ask_question_shape (question : str) (m : Machine E) :
  exists d m',
    ask_question question m = (Ok d, m')
    /\ (d = no_document
        \/ (exists e, d = generation_error e)
        \/ (exists answer, d = answered question answer)).
Proof.
  pose proof (ask_question_cases question m) as H.
  destruct (rag_chain (self m)) as [chain|].
  - cbv zeta in H.
    destruct (FAISS_similarity_search E _ _ _ _) as [[docs|e] w1].
    + destruct (OllamaLLM_invoke E _ w1) as [[answer|e] w2];
        rewrite H; eauto 8.
    + rewrite H; eauto 8.
  - rewrite H; eauto 8.
Qed.

(** The handler, once the question has passed the emptiness test, by
    what the service returned. *)
Lemma app_ask_question_error (question : str) (m m' : Machine E)
  (msg : str) :
  blank question = false ->
  ask_question question m
  = (Ok [ (lit "status", error); (lit "message", VStr msg) ], m') ->
  App.ask_question question m
  = (Ok (inl {| App.status_code := 400; App.detail := msg |}), m').
Proof.
  intros Hb Hq. unfold App.ask_question.
  assert (Hcond : match question with [] => true | _ => false end
                  || str_eqb (strip question) [] = false).
  { apply orb_false_iff. split.
    - destruct question; [discriminate Hb | reflexivity].
    - destruct (str_eqb (strip question) []) eqn:Hs; [|reflexivity].
      apply str_eqb_eq, strip_nil_iff in Hs. congruence. }
  rewrite Hcond. unfold bind at 1. rewrite Hq. reflexivity.
Qed.

Lemma app_ask_question_answered (question : str) (m m' : Machine E)
  (answer : str) :
  blank question = false ->
  ask_question question m = (Ok (answered question answer), m') ->
  App.ask_question question m
  = (Ok (inr {| App.status := lit "success"; App.question := question;
                App.answer := answer |}), m').
Proof.
  intros Hb Hq. unfold App.ask_question.
  assert (Hcond : match question with [] => true | _ => false end
                  || str_eqb (strip question) [] = false).
  { apply orb_false_iff. split.
    - destruct question; [discriminate Hb | reflexivity].
    - destruct (str_eqb (strip question) []) eqn:Hs; [|reflexivity].
      apply str_eqb_eq, strip_nil_iff in Hs. congruence. }
  rewrite Hcond. unfold bind at 1. rewrite Hq. reflexivity.
Qed.

(** The emptiness test of the handler comes first. *)
Lemma app_ask_question_blank (question : str) (m : Machine E) :
  blank question = true ->
  App.ask_question question m
  = (Ok (inl {| App.status_code := 400;
                App.detail := lit "Question cannot be empty" |}), m).
Proof.
  intros Hb. unfold App.ask_question.
  assert (Hs : str_eqb (strip question) [] = true)
    by now apply str_eqb_eq, strip_nil_iff.
  rewrite Hs, orb_true_r. reflexivity.
Qed.

(** C4. A question that is empty or made of whitespace only is turned
    down by the handler of [/ask] with 400 "Question cannot be empty",
    whatever the state of the service (so also when no document was
    ingested, where a non-blank question gets the no-document error), and
    the machine is left as it was: no field read or written beyond the
    test, nothing called, the history untouched.  Through the route the
    client gets a 4xx answer: 422 from the request model for the empty
    string (the handler is not run), the handler's 400 otherwise. *)
Theorem blank_question_rejected (question : str) (m : Machine E) :
  blank question = true ->
  App.ask_question question m
  = (Ok (inl {| App.status_code := 400;
                App.detail := lit "Question cannot be empty" |}), m)
  /\ (exists body,
         App.post_ask question m
         = (App.Response (if (length question =? 0)%nat then 422 else 400)
              body, m))
  /\ (400 <= App.code_of (fst (App.post_ask question m)) < 500)%Z
  /\ chat_history (self (snd (App.post_ask question m)))
     = chat_history (self m)
  /\ calls (snd (App.post_ask question m)) = calls m.
Proof.
  intros Hb.
  pose proof (app_ask_question_blank question m Hb) as Hh.
  split; [exact Hh|].
  unfold App.post_ask, App.QuestionRequest_valid.
  destruct question as [|c question]; cbn [length Nat.leb negb Nat.eqb].
  - cbn. split; [eauto|]. repeat split; lia.
  - rewrite Hh. cbn. split; [eauto|]. repeat split; lia.
Qed.

(** Every error of the service leaves [/ask] as a 400: the handler has no
    other status code. *)
Lemma app_ask_question_status_code (question : str) (m m' : Machine E)
  (exc : App.HTTPException) :
  App.ask_question question m = (Ok (inl exc), m') ->
  App.status_code exc = 400%Z.
Proof.
  unfold App.ask_question.
  destruct (_ || _) eqn:Hcond.
  - intros [= <- _]. reflexivity.
  - apply orb_false_iff in Hcond as [Hne Hs].
    assert (Hb : blank question = false).
    { destruct (blank question) eqn:Hb; [|reflexivity].
      apply strip_nil_iff in Hb. rewrite Hb in Hs. discriminate. }
    destruct (ask_question_shape question m)
      as (d & m1 & Hq & [->|[[e ->]|[a ->]]]).
    + pose proof (app_ask_question_error question m m1 _ Hb Hq) as H.
      unfold App.ask_question in H. rewrite Hne, Hs in H. cbn [orb] in H.
      rewrite H. intros [= <- _]. reflexivity.
    + pose proof (app_ask_question_error question m m1 _ Hb Hq) as H.
      unfold App.ask_question in H. rewrite Hne, Hs in H. cbn [orb] in H.
      rewrite H. intros [= <- _]. reflexivity.
    + pose proof (app_ask_question_answered question m m1 _ Hb Hq) as H.
      unfold App.ask_question in H. rewrite Hne, Hs in H. cbn [orb] in H.
      rewrite H. discriminate.
Qed.

(** A failure of the generation backend reaches the client of [/ask] as
    a 400. *)
Lemma post_ask_generation_failure
  (question : str) (m : Machine E) (chain : RunnableSequence E)
  (docs : list Document) (w1 w2 : World E) (e : str) :
  blank question = false ->
  rag_chain (self m) = Some chain ->
  FAISS_similarity_search E (retriever_vectorstore (chain_retriever chain))
    question (search_k (chain_retriever chain)) (world m) = (Ok docs, w1) ->
  OllamaLLM_invoke E
    (prompt_format (format_docs docs) (chat_history (self m)) question) w1
  = (Raise e, w2) ->
  fst (App.post_ask question m)
  = App.Response 400
      [ (lit "detail", VStr (lit "Error processing question: " ++ e)) ].
Proof.
  intros Hb Hc Hs Hg.
  pose proof (ask_question_cases question m) as H.
  rewrite Hc in H. cbv zeta in H. rewrite Hs, Hg in H.
  unfold App.post_ask, App.QuestionRequest_valid.
  destruct question as [|c question]; [discriminate Hb|].
  cbn [length Nat.leb negb].
  rewrite (app_ask_question_error _ m _ _ Hb H). reflexivity.
Qed.

(** The route answers 200, 400 or 422 and nothing else: the handler never
    fails on a dictionary of the service, and never answers 500. *)
Lemma post_ask_codes (question : str) (m : Machine E) :
  let c := App.code_of (fst (App.post_ask question m)) in
  (c = 200 \/ c = 400 \/ c = 422)%Z.
Proof.
  cbv zeta. unfold App.post_ask.
  destruct (negb _); [right; right; reflexivity|].
  destruct (blank question) eqn:Hb.
  - rewrite (app_ask_question_blank question m Hb).
    right; left; reflexivity.
  - destruct (ask_question_shape question m)
      as (d & m1 & Hq & [->|[[e ->]|[a ->]]]).
    + rewrite (app_ask_question_error question m m1 _ Hb Hq).
      right; left; reflexivity.
    + rewrite (app_ask_question_error question m m1 _ Hb Hq).
      right; left; reflexivity.
    + rewrite (app_ask_question_answered question m m1 _ Hb Hq).
      left; reflexivity.
Qed.

End Properties.

(** * Concrete sessions *)

Section Runs.

Import Service.

Lemma ask_question_without_document_witness :
  rag_chain (self (Sim.started false true)) = None
  /\ ask_question Sim.what_is_rocq (Sim.started false true)
     = (Ok no_document, Sim.started false true).
Proof.
  assert (h : rag_chain (self (Sim.started false true)) = None)
    by reflexivity.
  split; [exact h|].
  exact (proj1 (ask_question_without_document Sim.what_is_rocq
                  (Sim.started false true) h)).
Defined.

Lemma ask_question_success_appends_witness :
  let m := Sim.ingested false true in
  let d := answered Sim.what_is_rocq (lit "You asked: What is Rocq?") in
  ask_question Sim.what_is_rocq m
  = (Ok d, snd (ask_question Sim.what_is_rocq m))
  /\ dict_get d (lit "status") = Some success
  /\ exists answer,
       chat_history (self (snd (ask_question Sim.what_is_rocq m)))
       = chat_history (self m)
         ++ [Message human Sim.what_is_rocq; Message ai answer].
Proof.
  cbv zeta.
  assert (h1 : ask_question Sim.what_is_rocq (Sim.ingested false true)
               = (Ok (answered Sim.what_is_rocq
                        (lit "You asked: What is Rocq?")),
                  snd (ask_question Sim.what_is_rocq
                         (Sim.ingested false true))))
    by (vm_compute; reflexivity).
  assert (h2 : dict_get (answered Sim.what_is_rocq
                           (lit "You asked: What is Rocq?"))
                 (lit "status") = Some success)
    by reflexivity.
  split; [exact h1|]. split; [exact h2|].
  destruct (ask_question_success_appends _ _ _ _ h1 h2)
    as (answer & _ & _ & _ & H & _).
  exists answer. exact H.
Defined.

Lemma ask_question_generation_failure_witness :
  let m := Sim.ingested false false in
  let e := lit "[Errno 111] Connection refused" in
  rag_chain (self m) = Some Sim.chain
  /\ Sim.similarity_search Sim.index Sim.what_is_rocq 3 (world m)
     = (Ok Sim.index, world m)
  /\ Sim.invoke
       (prompt_format (format_docs Sim.index) (chat_history (self m))
          Sim.what_is_rocq) (world m)
     = (Raise e, world m)
  /\ exists m',
       ask_question Sim.what_is_rocq m = (Ok (generation_error e), m')
       /\ chat_history (self m') = chat_history (self m).
Proof.
  cbv zeta.
  assert (h1 : rag_chain (self (Sim.ingested false false)) = Some Sim.chain)
    by reflexivity.
  assert (h2 : FAISS_similarity_search Sim.externals
                 (retriever_vectorstore (chain_retriever Sim.chain))
                 Sim.what_is_rocq (search_k (chain_retriever Sim.chain))
                 (world (Sim.ingested false false))
               = (Ok Sim.index, world (Sim.ingested false false)))
    by reflexivity.
  assert (h3 : OllamaLLM_invoke Sim.externals
                 (prompt_format (format_docs Sim.index)
                    (chat_history (self (Sim.ingested false false)))
                    Sim.what_is_rocq)
                 (world (Sim.ingested false false))
               = (Raise (lit "[Errno 111] Connection refused"),
                  world (Sim.ingested false false)))
    by reflexivity.
  split; [exact h1|]. split; [exact h2|]. split; [exact h3|].
  destruct (ask_question_generation_failure _ _ _ _ _ _ _ h1 h2 h3)
    as (m' & H & _ & _ & _ & Hh).
  exists m'. split; [exact H | exact Hh].
Defined.

Lemma process_pdf_keeps_history_witness :
  let m := snd (ask_question Sim.what_is_rocq (Sim.ingested false true)) in
  let m' := snd (process_pdf Sim.report_pdf m) in
  process_pdf Sim.report_pdf m = (Ok (processed 2), m')
  /\ dict_get (processed 2) (lit "status") = Some success
  /\ length (chat_history (self m)) = 2
  /\ chat_history (self m') = chat_history (self m).
Proof.
  cbv zeta.
  assert (h1 : process_pdf Sim.report_pdf
                 (snd (ask_question Sim.what_is_rocq
                         (Sim.ingested false true)))
               = (Ok (processed 2),
                  snd (process_pdf Sim.report_pdf
                         (snd (ask_question Sim.what_is_rocq
                                 (Sim.ingested false true))))))
    by (vm_compute; reflexivity).
  assert (h2 : dict_get (processed 2) (lit "status") = Some success)
    by reflexivity.
  split; [exact h1|]. split; [exact h2|]. split; [reflexivity|].
  exact (proj1 (process_pdf_keeps_history _ _ _ _ h1 h2)).
Defined.

Lemma retrieval_and_context_witness :
  let w := {| Sim.read_only := false; Sim.ollama_up := true;
              Sim.existing := [Sim.vector_db]; Sim.saved := None |} in
  let ops := [ProcessPdf Sim.report_pdf] in
  let m := run ops (Sim.started false true) in
  __init__ (E:=Sim.externals) Sim.vector_db w
  = (Ok tt, Sim.started false true)
  /\ rag_chain (self m) = Some Sim.chain
  /\ calls (snd (ask_question Sim.what_is_rocq m))
     = calls m
       ++ [Retrieve (E:=Sim.externals) Sim.index Sim.what_is_rocq 3;
           Generate
             (prompt_format
                (lit "Rocq is a proof assistant." ++ [10%N; 10%N]
                 ++ lit "It checks proofs by machine.")
                [] Sim.what_is_rocq)].
Proof.
  cbv zeta.
  assert (h1 : __init__ (E:=Sim.externals) Sim.vector_db
                 {| Sim.read_only := false; Sim.ollama_up := true;
                    Sim.existing := [Sim.vector_db]; Sim.saved := None |}
               = (Ok tt, Sim.started false true))
    by reflexivity.
  assert (h2 : rag_chain (self (run [ProcessPdf Sim.report_pdf]
                                  (Sim.started false true)))
               = Some Sim.chain)
    by reflexivity.
  split; [exact h1|]. split; [exact h2|].
  exact (proj1 (retrieval_and_context _ _ _ _ Sim.what_is_rocq _ h1 h2)).
Defined.

Lemma blank_question_rejected_witness :
  blank [32%N; 9%N; 160%N] = true
  /\ App.ask_question [32%N; 9%N; 160%N] (Sim.started false true)
     = (Ok (inl {| App.status_code := 400;
                   App.detail := lit "Question cannot be empty" |}),
        Sim.started false true).
Proof.
  assert (h : blank [32%N; 9%N; 160%N] = true) by reflexivity.
  split; [exact h|].
  exact (proj1 (blank_question_rejected [32%N; 9%N; 160%N]
                  (Sim.started false true) h)).
Defined.

Lemma history_is_paired_witness :
  let w := {| Sim.read_only := false; Sim.ollama_up := true;
              Sim.existing := [Sim.vector_db]; Sim.saved := None |} in
  let ops := [Ask Sim.what_is_rocq; ProcessPdf Sim.report_pdf;
              PostAsk Sim.what_is_rocq; GetStatus; Ask (lit "And?")] in
  let m := run ops (Sim.started false true) in
  __init__ (E:=Sim.externals) Sim.vector_db w
  = (Ok tt, Sim.started false true)
  /\ length (chat_history (self m)) = 4
  /\ paired (chat_history (self m)) = true.
Proof.
  cbv zeta.
  assert (h1 : __init__ (E:=Sim.externals) Sim.vector_db
                 {| Sim.read_only := false; Sim.ollama_up := true;
                    Sim.existing := [Sim.vector_db]; Sim.saved := None |}
               = (Ok tt, Sim.started false true))
    by reflexivity.
  split; [exact h1|]. split; [reflexivity|].
  exact (proj1 (history_is_paired _ _ _
                  [Ask Sim.what_is_rocq; ProcessPdf Sim.report_pdf;
                   PostAsk Sim.what_is_rocq; GetStatus; Ask (lit "And?")]
                  h1)).
Defined.

(** ** Two sessions in which the code leaves the documented behaviour *)

(** C2.  The storage directory cannot be written.  [process_pdf] on a
    readable PDF builds the index, assigns it to [self.vectorstore], and
    then [save_local] raises: the handler returns the error dictionary,
    and the object is left with an index but neither retriever nor chain.
    "Chain iff index" held before the call and does not hold after it;
    [get_status] reports it. *)
Theorem process_pdf_failed_save_leaves_index :
  let m0 := Sim.started true true in
  let r := process_pdf Sim.report_pdf m0 in
  consistent (self m0)
  /\ fst r = Ok (processing_error (lit "[Errno 13] Permission denied"))
  /\ vectorstore (self (snd r)) = Some Sim.index
  /\ retriever (self (snd r)) = None
  /\ rag_chain (self (snd r)) = None
  /\ ~ consistent (self (snd r))
  /\ fst (get_status (snd r))
     = Ok [ (lit "vectorstore_loaded", VBool true);
            (lit "retriever_ready", VBool false);
            (lit "qa_chain_ready", VBool false);
            (lit "chat_history_length", VInt 0) ]
  /\ fst (ask_question Sim.what_is_rocq (snd r)) = Ok no_document.
Proof.
  cbv zeta. split.
  - apply consistent_fresh.
  - repeat split; try reflexivity.
    intros [_ H]. apply H; [vm_compute; discriminate | reflexivity].
Qed.

(** C9.  A document has been ingested and the Ollama server is down.  The
    question is well formed, the chain runs, the generation backend
    raises, and the client of [/ask] receives status code 400 with the
    backend's message, not 500. *)
Theorem post_ask_backend_down_is_400 :
  let m := Sim.ingested false false in
  rag_chain (self m) <> None
  /\ blank Sim.what_is_rocq = false
  /\ fst (App.post_ask Sim.what_is_rocq m)
     = App.Response 400
         [ (lit "detail",
            VStr (lit "Error processing question: [Errno 111] Connection refused")) ]
  /\ App.code_of (fst (App.post_ask Sim.what_is_rocq m)) <> 500%Z.
Proof.
  cbv zeta. split; [discriminate|]. split; [reflexivity|].
  split; [vm_compute; reflexivity | vm_compute; discriminate].
Qed.

(** On the simulated disk a second [clear_session] changes nothing at
    all: same fields, same directory, no saved index. *)
Example clear_session_twice_same_disk :
  let m1 := snd (clear_session (Sim.ingested false true)) in
  let m2 := snd (clear_session m1) in
  self m2 = self m1 /\ world m2 = world m1
  /\ Sim.saved (world m1) = None
  /\ Sim.path_exists Sim.vector_db (world m1) = true.
Proof. cbv zeta. repeat split; vm_compute; reflexivity. Qed.

End Runs.

(** * The rest of the service *)

Section ServiceProperties.

Context {E : Externals}.

Import Service.

Ltac run_py :=
  unfold add_user_message, add_ai_message, history_clear,
    set_vectorstore, set_retriever, set_rag_chain, set_messages,
    _create_rag_chain, retriever_invoke, path_exists, external,
    App.getitem, App.as_str,
    bind, ret, try_except, get_self, set_self in *;
  cbn in *.

(** ** [process_pdf] *)


(** X2. When the PDF cannot be loaded, or no index can be built from its
    pages, [process_pdf] returns the error dictionary carrying the
    exception's text, no field of the object changes, and nothing is
    saved: the calls made are the load, and the build if it was reached. *)
Theorem process_pdf_nothing_built
  (pdf_path : str) (m : Machine E) (e : str) :
  (exists w1, PyPDFLoader_load E pdf_path (world m) = (Raise e, w1))
  \/ (exists documents w1 w2,
        PyPDFLoader_load E pdf_path (world m) = (Ok documents, w1)
        /\ FAISS_from_documents E documents w1 = (Raise e, w2)) ->
  fst (process_pdf pdf_path m) = Ok (processing_error e)
  /\ self (snd (process_pdf pdf_path m)) = self m
  /\ (calls (snd (process_pdf pdf_path m)) = calls m ++ [LoadPdf pdf_path]
      \/ exists documents,
           calls (snd (process_pdf pdf_path m))
           = calls m ++ [LoadPdf pdf_path; BuildIndex documents]).
Proof.
  pose proof (process_pdf_cases pdf_path m) as H. cbv zeta in H.
  intros [[w1 H1]|(documents & w1 & w2 & H1 & H2)]; rewrite H1 in H.
  - rewrite H. cbn. auto.
  - rewrite H2 in H. rewrite H. cbn. repeat split.
    right. exists documents. now rewrite <- app_assoc.
Qed.

(** X3. After a [process_pdf] that reports success, [get_status] reports
    index, retriever and chain all present and the history length of
    before the upload, and changes nothing. *)
Theorem status_after_process_pdf
  (pdf_path : str) (m m' : Machine E) (d : dict) :
  process_pdf pdf_path m = (Ok d, m') ->
  dict_get d (lit "status") = Some success ->
  get_status m'
  = (Ok (Results.ready_status (length (chat_history (self m)))), m').
Proof.
  intros Hrun Hst.
  pose proof (process_pdf_cases pdf_path m) as H. cbv zeta in H.
  destruct (PyPDFLoader_load E _ _) as [[documents|e] w1].
  - destruct (FAISS_from_documents E _ _) as [[v|e] w2].
    + destruct (FAISS_save_local E _ _ _) as [[[]|e] w3];
        rewrite H in Hrun; injection Hrun as <- <-.
      * reflexivity.
      * now apply error_is_not_success in Hst.
    + rewrite H in Hrun; injection Hrun as <- <-.
      now apply error_is_not_success in Hst.
  - rewrite H in Hrun; injection Hrun as <- <-.
    now apply error_is_not_success in Hst.
Qed.

(** The first thing a question does when a chain exists is the search,
    on the chain's index with the chain's k. *)
Lemma ask_question_first_call
  (question : str) (m : Machine E) (chain : RunnableSequence E) :
  rag_chain (self m) = Some chain ->
  exists rest,
    calls (snd (ask_question question m))
    = calls m
      ++ Retrieve (retriever_vectorstore (chain_retriever chain)) question
           (search_k (chain_retriever chain)) :: rest.
Proof.
  intros Hc.
  pose proof (ask_question_cases question m) as H.
  rewrite Hc in H. cbv zeta in H.
  destruct (FAISS_similarity_search E _ _ _ _) as [[docs|e] w1].
  - destruct (OllamaLLM_invoke E _ w1) as [[answer|e] w2];
      rewrite H; cbn [snd calls]; rewrite <- app_assoc; cbn; eauto.
  - rewrite H; cbn [snd calls]; eauto.
Qed.

(** ** [load_existing_vectorstore] *)


(** X5. A [load_existing_vectorstore] that reports success has put the
    loaded index, a retriever with k = 3 and a chain on it in place and
    kept the history; the next question is searched in the loaded index
    with k = 3. *)
Theorem load_existing_vectorstore_success_ready
  (m m' : Machine E) (d : dict) :
  load_existing_vectorstore m = (Ok d, m') ->
  dict_get d (lit "status") = Some success ->
  exists v,
    fst (FAISS_load_local E (vector_db_path (self m)) (world m)) = Ok v
    /\ self m' = ready_on (self m) v
    /\ chat_history (self m') = chat_history (self m)
    /\ forall question,
         exists rest,
           calls (snd (ask_question question m'))
           = calls m' ++ Retrieve v question 3 :: rest.
Proof.
  intros Hrun Hst.
  pose proof (load_existing_vectorstore_cases m) as H. cbv zeta in H.
  destruct (os_path_exists E _ _).
  - destruct (FAISS_load_local E _ _) as [[v|e] w1];
      rewrite H in Hrun; injection Hrun as <- <-.
    + exists v. repeat split. intros question.
      apply (ask_question_first_call question _
               {| chain_retriever := as_retriever v 3 |}).
      reflexivity.
    + now apply error_is_not_success in Hst.
  - rewrite H in Hrun; injection Hrun as <- <-.
    now apply error_is_not_success in Hst.
Qed.

(** ** [delete_pdf] *)

(** X6. [delete_pdf] never raises and never changes a field of the
    service.  For a path that does not exist it answers with the warning
    "PDF file not found" and calls nothing; otherwise it calls
    [os.remove] on that path once and answers success, or the error
    dictionary with the exception's text when the removal raises. *)
Theorem delete_pdf_behaviour (pdf_path : str) (m : Machine E) :
  exists d m',
    delete_pdf pdf_path m = (Ok d, m')
    /\ self m' = self m
    /\ (os_path_exists E pdf_path (world m) = false ->
        d = Results.not_found /\ m' = m)
    /\ (os_path_exists E pdf_path (world m) = true ->
        calls m' = calls m ++ [Remove pdf_path]
        /\ world m' = snd (os_remove E pdf_path (world m))
        /\ match fst (os_remove E pdf_path (world m)) with
           | Ok _ => d = Results.deleted
           | Raise e => d = Results.deleting_error e
           end).
Proof.
  unfold delete_pdf. run_py.
  destruct (os_path_exists E pdf_path (world m)); cbn.
  - destruct (os_remove E pdf_path (world m)) as [[[]|e] w1]; cbn;
      eexists; eexists; (split; [reflexivity|]); cbn;
      (split; [reflexivity|]); (split; [discriminate|]); auto.
  - eexists; eexists; (split; [reflexivity|]).
    split; [reflexivity|]. split; [auto | discriminate].
Qed.

(** ** [clear_session] *)

(** X7. What [clear_session] does on the disk.  A storage directory that
    is missing is not created: nothing is called.  One that exists is
    removed and then created again, in that order; when the removal
    raises, the directory is not created again and the result is the
    error dictionary, although the fields of the object have been
    cleared. *)
Theorem clear_session_on_disk (m : Machine E) :
  let path := vector_db_path (self m) in
  let s0 := fresh_service path in
  if os_path_exists E path (world m) then
    match shutil_rmtree E path (world m) with
    | (Raise e, w1) =>
        clear_session m
        = (Ok (Results.clearing_error e),
           {| self := s0; world := w1; calls := calls m ++ [Rmtree path] |})
    | (Ok _, w1) =>
        let log := calls m ++ [Rmtree path; Makedirs path] in
        match os_makedirs E path w1 with
        | (Raise e, w2) =>
            clear_session m
            = (Ok (Results.clearing_error e),
               {| self := s0; world := w2; calls := log |})
        | (Ok _, w2) =>
            clear_session m
            = (Ok Results.cleared,
               {| self := s0; world := w2; calls := log |})
        end
    end
  else
    clear_session m
    = (Ok Results.cleared,
       {| self := s0; world := world m; calls := calls m |}).
Proof.
  unfold clear_session. run_py.
  destruct (os_path_exists E _ _); cbn; [|reflexivity].
  destruct (shutil_rmtree E _ _) as [[[]|e] w1]; cbn; [|reflexivity].
  destruct (os_makedirs E _ _) as [[[]|e] w2]; cbn;
    rewrite <- app_assoc; reflexivity.
Qed.

(** X8. After [clear_session], from any state and whatever the disk did,
    every question is answered with the no-document error, without a
    search or a generation call: a document has to be ingested again. *)
Theorem ask_question_after_clear_session
  (question : str) (m : Machine E) :
  let m1 := snd (clear_session m) in
  ask_question question m1 = (Ok no_document, m1).
Proof.
  cbv zeta.
  pose proof (ask_question_cases question (snd (clear_session m))) as H.
  destruct (clear_session_self m) as [_ Hs].
  rewrite Hs in H. exact H.
Qed.

(** ** [__init__] *)


(** When the directory is missing and cannot be created, the constructor
    raises: there is no object. *)
Lemma init_raises (path : str) (w w1 : World E) (e : str) :
  os_path_exists E path w = false ->
  os_makedirs E path w = (Raise e, w1) ->
  fst (__init__ path w) = Raise e.
Proof.
  intros H1 H2. unfold __init__. run_py. rewrite H1. cbn. now rewrite H2.
Qed.

(** ** [ask_question] once more *)

(** X10. When the similarity search raises, [ask_question] returns the
    error dictionary with the exception's text, the generation backend
    is not called (the search is the only call made) and no field of the
    object changes. *)
Theorem ask_question_retrieval_failure
  (question : str) (m : Machine E) (chain : RunnableSequence E)
  (w1 : World E) (e : str) :
  rag_chain (self m) = Some chain ->
  FAISS_similarity_search E (retriever_vectorstore (chain_retriever chain))
    question (search_k (chain_retriever chain)) (world m) = (Raise e, w1) ->
  ask_question question m
  = (Ok (generation_error e),
     {| self := self m; world := w1;
        calls :=
          calls m
          ++ [Retrieve (retriever_vectorstore (chain_retriever chain))
                question (search_k (chain_retriever chain))] |})
  /\ existsb Results.is_generate
       (skipn (length (calls m)) (calls (snd (ask_question question m))))
     = false.
Proof.
  intros Hc Hs.
  pose proof (ask_question_cases question m) as H.
  rewrite Hc in H. cbv zeta in H. rewrite Hs in H.
  split; [exact H|].
  rewrite H. cbn [snd calls].
  rewrite skipn_app, skipn_all, Nat.sub_diag. reflexivity.
Qed.

Lemma answered_history
  (question answer : str) (m m' : Machine E) :
  ask_question question m = (Ok (answered question answer), m') ->
  chat_history (self m')
  = chat_history (self m) ++ [Message human question; Message ai answer]
  /\ rag_chain (self m') = rag_chain (self m)
  /\ rag_chain (self m) <> None.
Proof.
  intros Hrun.
  pose proof (ask_question_cases question m) as H.
  destruct (rag_chain (self m)) as [chain|] eqn:Hc.
  - cbv zeta in H.
    destruct (FAISS_similarity_search E _ _ _ _) as [[docs|e] w1].
    + destruct (OllamaLLM_invoke E _ w1) as [[a|e] w2];
        rewrite H in Hrun.
      * assert (a = answer) as -> by (unfold answered in Hrun; congruence).
        assert (Hm : m' = snd (ask_question question m))
          by (rewrite H; cbn [snd]; congruence).
        rewrite Hm, H. cbn.
        repeat split; try assumption; discriminate.
      * injection Hrun as Ha _. cbv in Ha. discriminate.
    + rewrite H in Hrun. injection Hrun as Ha _. cbv in Ha. discriminate.
  - rewrite H in Hrun. injection Hrun as Ha _. cbv in Ha. discriminate.
Qed.

(** X11. The conversation is handed to the generation backend: when a
    question has been answered and a second one is asked, the prompt of
    the second is the system message with the new context, then the
    whole history of before the first question, then the first question
    and its answer, then the second question. *)
Theorem second_prompt_carries_first_exchange
  (q1 a1 q2 : str) (m m1 : Machine E) (chain : RunnableSequence E)
  (docs : list Document) (w : World E) :
  ask_question q1 m = (Ok (answered q1 a1), m1) ->
  rag_chain (self m1) = Some chain ->
  FAISS_similarity_search E (retriever_vectorstore (chain_retriever chain))
    q2 (search_k (chain_retriever chain)) (world m1) = (Ok docs, w) ->
  calls (snd (ask_question q2 m1))
  = calls m1
    ++ [Retrieve (retriever_vectorstore (chain_retriever chain)) q2
          (search_k (chain_retriever chain));
        Generate
          (Message system (system_prompt (format_docs docs))
           :: chat_history (self m)
              ++ [Message human q1; Message ai a1; Message human q2])].
Proof.
  intros H1 Hc Hs.
  destruct (answered_history q1 a1 m m1 H1) as (Hh & _ & _).
  pose proof (ask_question_cases q2 m1) as H.
  rewrite Hc in H. cbv zeta in H. rewrite Hs in H.
  assert (Hp : prompt_format (format_docs docs) (chat_history (self m1)) q2
               = Message system (system_prompt (format_docs docs))
                 :: chat_history (self m)
                    ++ [Message human q1; Message ai a1; Message human q2]).
  { unfold prompt_format. rewrite Hh. cbn. now rewrite <- app_assoc. }
  rewrite Hp in H.
  destruct (OllamaLLM_invoke E _ w) as [[a|e] w2];
    rewrite H; cbn [snd calls]; now rewrite <- app_assoc.
Qed.

(** ** Index, retriever and chain *)

Lemma transition_chain (s s' : RAGServiceModern E) :
  transition s s' ->
  Results.chain_on_retriever s /\ (rag_chain s <> None -> vectorstore s <> None) ->
  Results.chain_on_retriever s'
  /\ (rag_chain s' <> None -> vectorstore s' <> None).
Proof.
  unfold Results.chain_on_retriever.
  intros [ |v|v| |q a Hc] [H1 H2]; cbn; split; auto; discriminate.
Qed.

Lemma run_chain (ops : list Op) (m : Machine E) :
  Results.chain_on_retriever (self m)
  /\ (rag_chain (self m) <> None -> vectorstore (self m) <> None) ->
  Results.chain_on_retriever (self (run ops m))
  /\ (rag_chain (self (run ops m)) <> None ->
      vectorstore (self (run ops m)) <> None).
Proof.
  revert m. induction ops as [|o ops IH]; intros m H; cbn; [exact H|].
  apply IH. eapply transition_chain; [apply exec_transition | exact H].
Qed.

(** X12. In every state reached from a newly built object by any sequence
    of operations, a chain exists only if an index exists, and the chain
    is the one built on the retriever the object holds: retriever and
    chain are present together or absent together, so [get_status] never
    reports one without the other. *)
Theorem chain_needs_index
  (path : str) (w : World E) (m0 : Machine E) (ops : list Op) :
  __init__ path w = (Ok tt, m0) ->
  let s := self (run ops m0) in
  (rag_chain s <> None -> vectorstore s <> None)
  /\ Results.chain_on_retriever s
  /\ isSome (rag_chain s) = isSome (retriever s).
Proof.
  intros Hinit. cbv zeta.
  assert (H : Results.chain_on_retriever (self (run ops m0))
              /\ (rag_chain (self (run ops m0)) <> None ->
                  vectorstore (self (run ops m0)) <> None)).
  { apply run_chain.
    pose proof (init_self path w) as H0. rewrite Hinit in H0. cbn in H0.
    rewrite H0. split; [reflexivity | intros H; now destruct H]. }
  destruct H as [H1 H2]. split; [exact H2|]. split; [exact H1|].
  unfold Results.chain_on_retriever in H1. rewrite H1.
  now destruct (retriever (self (run ops m0))).
Qed.

End ServiceProperties.

(** * The routes *)

Section RouteProperties.

Context {E : Externals}.

Variable copy_upload : str -> list N -> World E -> outcome unit * World E.

Import Service.

(** ** [POST /ask] *)

Lemma nonblank_valid (question : str) :
  blank question = false -> App.QuestionRequest_valid question = true.
Proof. destruct question; [discriminate | reflexivity]. Qed.

(** X13. A question that is not blank reaches the service exactly as it
    was sent (it is not stripped), and when the service answers, the
    client receives 200 with the service's status, that question and the
    answer; the history then ends with that question and that answer. *)
Theorem post_ask_answer
  (question answer : str) (m m' : Machine E) :
  blank question = false ->
  ask_question question m = (Ok (answered question answer), m') ->
  App.post_ask question m
  = (App.Response 200
       [ (lit "status", VStr (lit "success"));
         (lit "question", VStr question);
         (lit "answer", VStr answer) ], m')
  /\ chat_history (self m')
     = chat_history (self m)
       ++ [Message human question; Message ai answer].
Proof.
  intros Hb Hq. split.
  - unfold App.post_ask. rewrite (nonblank_valid question Hb). cbn [negb].
    rewrite (app_ask_question_answered question m m' answer Hb Hq).
    reflexivity.
  - now destruct (answered_history question answer m m' Hq).
Qed.

(** X14. A question that is not blank, asked through the route while no
    chain exists, is answered 400 with "Please upload and process a PDF
    first", and the machine is left as it was. *)
Theorem post_ask_without_document (question : str) (m : Machine E) :
  blank question = false ->
  rag_chain (self m) = None ->
  App.post_ask question m
  = (App.Response 400
       [ (lit "detail",
          VStr (lit "Please upload and process a PDF first")) ], m).
Proof.
  intros Hb Hc.
  pose proof (ask_question_cases question m) as H. rewrite Hc in H.
  unfold App.post_ask. rewrite (nonblank_valid question Hb). cbn [negb].
  rewrite (app_ask_question_error question m m _ Hb H). reflexivity.
Qed.

(** X15. The route changes the conversation exactly when it answers 200:
    then the history has grown by the question and the answer of the
    response body; with any other status code no field of the service
    has changed. *)
Theorem post_ask_history (question : str) (m : Machine E) :
  let r := App.post_ask question m in
  let body := match fst r with App.Response _ b => b end in
  (App.code_of (fst r) = 200%Z
   /\ exists answer,
        dict_get body (lit "answer") = Some (VStr answer)
        /\ chat_history (self (snd r))
           = chat_history (self m)
             ++ [Message human question; Message ai answer])
  \/ (App.code_of (fst r) <> 200%Z /\ self (snd r) = self m).
Proof.
  cbv zeta. unfold App.post_ask.
  destruct (negb _) eqn:Hv; [right; cbn; split; [discriminate|reflexivity]|].
  destruct (blank question) eqn:Hb.
  - rewrite (app_ask_question_blank question m Hb).
    right; cbn; split; [discriminate|reflexivity].
  - destruct (ask_question_shape question m)
      as (d & m1 & Hq & [->|[[e ->]|[a ->]]]).
    + rewrite (app_ask_question_error question m m1 _ Hb Hq).
      right; cbn; split; [discriminate|].
      destruct (ask_question_returns question m) as (d & Hd & [Hs|[_ Hs]]).
      * rewrite Hq in Hd. cbn in Hd. injection Hd as <-.
        now apply error_is_not_success in Hs.
      * now rewrite Hq in Hs.
    + rewrite (app_ask_question_error question m m1 _ Hb Hq).
      right; cbn; split; [discriminate|].
      destruct (ask_question_returns question m) as (d & Hd & [Hs|[_ Hs]]).
      * rewrite Hq in Hd. cbn in Hd. injection Hd as <-.
        now apply error_is_not_success in Hs.
      * now rewrite Hq in Hs.
    + rewrite (app_ask_question_answered question m m1 _ Hb Hq).
      left; cbn; split; [reflexivity|]. exists a. split; [reflexivity|].
      now destruct (answered_history question a m m1 Hq).
Qed.

(** ** [GET /chat-history] *)

Lemma for_each_chat_messages (h : list BaseMessage) (m : Machine E) :
  History.for_each
    (fun msg =>
       bind (App.getitem msg (lit "type")) (fun t =>
       bind (App.as_str t) (fun t' =>
       bind (App.getitem msg (lit "content")) (fun c =>
       bind (App.as_str c) (fun c' =>
       ret {| History.type := t'; History.content := c' |})))))
    (map (fun msg => [ (lit "type", VStr (role_name (type msg)));
                       (lit "content", VStr (content msg)) ]) h) m
  = (Ok (map Results.chat_message h), m).
Proof.
  induction h as [|msg h IH]; [reflexivity|].
  cbn [map History.for_each]. unfold bind at 1.
  unfold bind at 1. unfold bind at 1. unfold bind at 1. unfold bind at 1.
  unfold bind in IH. unfold bind at 1.
  change (App.getitem
            [(lit "type", VStr (role_name (type msg)));
             (lit "content", VStr (content msg))] (lit "type") m)
    with (Ok (VStr (role_name (type msg))), m).
  cbn [App.as_str ret].
  change (App.getitem
            [(lit "type", VStr (role_name (type msg)));
             (lit "content", VStr (content msg))] (lit "content") m)
    with (Ok (VStr (content msg)), m).
  cbn [App.as_str ret]. unfold bind. rewrite IH. reflexivity.
Qed.

Lemma get_chat_history_run (m : Machine E) :
  History.get_chat_history m
  = (Ok (inr {| History.status := lit "success";
                History.chat_history :=
                  map Results.chat_message (chat_history (self m));
                History.total_messages :=
                  Z.of_nat (length (chat_history (self m))) |}), m).
Proof.
  unfold History.get_chat_history, try_except. unfold bind at 1.
  unfold get_chat_history at 1. unfold bind at 1, get_self, ret at 1.
  unfold bind at 1.
  rewrite for_each_chat_messages. unfold ret.
  now rewrite length_map.
Qed.

(** X16. [GET /chat-history] never answers 500 and changes nothing: it
    returns status "success" and one entry per turn of the history, in
    order, the entry at place i carrying the type name ("human", "ai")
    and the content of the turn at place i; [total_messages] is the
    length of the history. *)
Theorem chat_history_route (m : Machine E) :
  exists resp,
    History.get_chat_history m = (Ok (inr resp), m)
    /\ History.status resp = lit "success"
    /\ History.total_messages resp
       = Z.of_nat (length (chat_history (self m)))
    /\ length (History.chat_history resp) = length (chat_history (self m))
    /\ forall i msg,
         nth_error (chat_history (self m)) i = Some msg ->
         nth_error (History.chat_history resp) i
         = Some {| History.type := role_name (type msg);
                   History.content := content msg |}.
Proof.
  eexists. split; [apply get_chat_history_run|]. cbn.
  split; [reflexivity|]. split; [reflexivity|].
  split; [apply length_map|].
  intros i msg H. rewrite nth_error_map, H. reflexivity.
Qed.

(** ** [POST /upload-pdf] *)

(** Comparisons of literals of the source. *)
Ltac lit_step :=
  repeat match goal with
    | |- context [str_eqb (lit ?x) (lit ?y)] =>
        let v := eval vm_compute in (str_eqb (lit x) (lit y)) in
        change (str_eqb (lit x) (lit y)) with v; cbv iota
    | |- context [App.value_eqb error (VStr (lit "error"))] =>
        change (App.value_eqb error (VStr (lit "error"))) with true;
        cbv iota
    | |- context [App.value_eqb success (VStr (lit "error"))] =>
        change (App.value_eqb success (VStr (lit "error"))) with false;
        cbv iota
    end.

Ltac upload_step :=
  unfold Upload.write_file, Upload.set_current_pdf_path,
    Upload.get_current_pdf_path, Upload.on_service, Upload.getitem,
    Upload.remove_if_exists, path_exists, external,
    bind, ret, try_except;
  cbn [fst snd Upload.rag_service Upload.current_pdf_path
       self world calls negb].

Ltac upload_run :=
  repeat first [progress lit_step | progress upload_step
               | progress cbn [dict_get processing_error processed]].

Lemma str_eqb_refl (a : str) : str_eqb a a = true.
Proof. now apply str_eqb_eq. Qed.

(** [endswith] is "is of the form stem ++ suffix". *)
Lemma endswith_spec (s suffix : str) :
  Upload.endswith s suffix = true <-> exists stem, s = stem ++ suffix.
Proof.
  unfold Upload.endswith. split.
  - intros H. apply andb_true_iff in H as [_ H]. apply str_eqb_eq in H.
    set (n := (length s - length suffix)%nat) in *.
    exists (firstn n s). rewrite <- H. symmetry. apply firstn_skipn.
  - intros [stem ->]. rewrite length_app.
    replace (length stem + length suffix - length suffix)%nat
      with (length stem + 0)%nat by lia.
    rewrite skipn_app, Nat.add_0_r, skipn_all.
    replace (length stem - length stem)%nat with 0%nat by lia.
    cbn [skipn app]. rewrite str_eqb_refl.
    apply andb_true_iff. split; [apply Nat.leb_le; lia | reflexivity].
Qed.

(** X17. A file whose name is not some stem followed by ".pdf" in lower
    case (so also "x.PDF", "x.pdf " or "pdf") is refused with 400 before
    anything is done: nothing is written, the service is not called, the
    module state is unchanged. *)
Theorem upload_pdf_wrong_extension
  (f : Upload.UploadFile) (a : Upload.AppState E) :
  (forall stem, Upload.filename f <> stem ++ lit ".pdf") ->
  Upload.upload_pdf copy_upload f a
  = (Ok (inl {| Upload.status_code := 400;
                Upload.detail :=
                  VStr (lit "Only PDF files are allowed. Please upload a .pdf file.") |}),
     a)
  /\ Upload.post_upload_pdf copy_upload f a = (400%Z, a).
Proof.
  intros Hno.
  assert (Hx : Upload.endswith (Upload.filename f) (lit ".pdf") = false).
  { destruct (Upload.endswith _ _) eqn:Hx; [|reflexivity].
    apply endswith_spec in Hx as [stem Hs]. now destruct (Hno stem). }
  unfold Upload.post_upload_pdf, Upload.upload_pdf.
  rewrite Hx. cbn. auto.
Qed.

(** X18. When the upload is written and [process_pdf] reports success
    on the written path, the client receives the success message naming
    the file and the number of pages, the service holds the state
    [process_pdf] left, and [current_pdf_path] is the written path. *)
Theorem upload_pdf_success
  (f : Upload.UploadFile) (a : Upload.AppState E) (w1 : World E)
  (n : nat) (m2 : Machine E) :
  let file_path := Upload.os_path_join Upload.UPLOAD_DIR (Upload.filename f) in
  Upload.endswith (Upload.filename f) (lit ".pdf") = true ->
  copy_upload file_path (Upload.file f) (world (Upload.rag_service a))
  = (Ok tt, w1) ->
  process_pdf file_path (Results.written (Upload.rag_service a) w1)
  = (Ok (processed n), m2) ->
  Upload.upload_pdf copy_upload f a
  = (Ok (inr {| Upload.status := lit "success";
                Upload.message :=
                  Results.upload_message (Upload.filename f) n |}),
     {| Upload.rag_service := m2;
        Upload.current_pdf_path := Some file_path |}).
Proof.
  cbv zeta. intros Hx Hw Hp. unfold Upload.upload_pdf.
  rewrite Hx. upload_step. rewrite Hw. upload_step.
  fold (Results.written (Upload.rag_service a) w1). rewrite Hp.
  reflexivity.
Qed.

(** X19. When the upload is written and [process_pdf] reports an error,
    the written file is removed if it is there (no orphan is left),
    [current_pdf_path] is reset, and the client receives 500 with the
    message of the service. *)
Theorem upload_pdf_processing_failure
  (f : Upload.UploadFile) (a : Upload.AppState E) (w1 w3 : World E)
  (e : str) (m2 : Machine E) :
  let file_path := Upload.os_path_join Upload.UPLOAD_DIR (Upload.filename f) in
  Upload.endswith (Upload.filename f) (lit ".pdf") = true ->
  copy_upload file_path (Upload.file f) (world (Upload.rag_service a))
  = (Ok tt, w1) ->
  process_pdf file_path (Results.written (Upload.rag_service a) w1)
  = (Ok (processing_error e), m2) ->
  os_remove E file_path (world m2) = (Ok tt, w3) ->
  Upload.upload_pdf copy_upload f a
  = (Ok (inl {| Upload.status_code := 500;
                Upload.detail :=
                  VStr (lit "Error processing PDF: " ++ e) |}),
     {| Upload.rag_service :=
          if os_path_exists E file_path (world m2) then
            {| self := self m2; world := w3;
               calls := calls m2 ++ [Remove file_path] |}
          else m2;
        Upload.current_pdf_path := None |}).
Proof.
  cbv zeta. intros Hx Hw Hp Hr. unfold Upload.upload_pdf.
  rewrite Hx. upload_step. rewrite Hw. upload_step.
  fold (Results.written (Upload.rag_service a) w1). rewrite Hp.
  upload_run.
  destruct (os_path_exists E _ (world m2)); upload_run.
  - rewrite Hr. upload_run. reflexivity.
  - destruct m2; reflexivity.
Qed.

(** X20. When writing the upload raises, [process_pdf] is not called: no
    field of the service changes and no call is logged except the
    removal of the file recorded in [current_pdf_path], if there is one
    and it exists; with no recorded file the client receives 500 "Error
    uploading PDF: " and the exception's text. *)
Theorem upload_pdf_write_failure
  (f : Upload.UploadFile) (a : Upload.AppState E) (w1 : World E)
  (e : str) :
  let file_path := Upload.os_path_join Upload.UPLOAD_DIR (Upload.filename f) in
  Upload.endswith (Upload.filename f) (lit ".pdf") = true ->
  copy_upload file_path (Upload.file f) (world (Upload.rag_service a))
  = (Raise e, w1) ->
  let a' := snd (Upload.upload_pdf copy_upload f a) in
  self (Upload.rag_service a') = self (Upload.rag_service a)
  /\ (calls (Upload.rag_service a') = calls (Upload.rag_service a)
      \/ exists p,
           Upload.current_pdf_path a = Some p
           /\ calls (Upload.rag_service a')
              = calls (Upload.rag_service a) ++ [Remove p])
  /\ (Upload.current_pdf_path a = None ->
      Upload.upload_pdf copy_upload f a
      = (Ok (inl {| Upload.status_code := 500;
                    Upload.detail :=
                      VStr (lit "Error uploading PDF: " ++ e) |}),
         {| Upload.rag_service :=
              Results.written (Upload.rag_service a) w1;
            Upload.current_pdf_path := None |})).
Proof.
  cbv zeta. intros Hx Hw. unfold Upload.upload_pdf.
  rewrite Hx. upload_step. rewrite Hw. upload_step.
  destruct (Upload.current_pdf_path a) as [[|c p]|] eqn:Hc; upload_step.
  - repeat split; auto; discriminate.
  - destruct (os_path_exists E (c :: p) w1); upload_step.
    + destruct (os_remove E (c :: p) w1) as [[[]|e2] w2]; upload_step;
        (split; [reflexivity|]); (split; [|discriminate]);
        right; exists (c :: p); auto.
    + repeat split; auto; discriminate.
  - repeat split; auto.
Qed.

(** X21. A failed write costs the previous upload its file: when a path
    is recorded in [current_pdf_path] from an earlier upload, that file
    exists and writing the new upload raises, the handler removes the
    earlier file and resets [current_pdf_path], while the service keeps
    the index and chain built from it. *)
Theorem upload_pdf_write_failure_removes_previous
  (f : Upload.UploadFile) (a : Upload.AppState E) (w1 w2 : World E)
  (e : str) (c : N) (p : str) :
  let file_path := Upload.os_path_join Upload.UPLOAD_DIR (Upload.filename f) in
  Upload.endswith (Upload.filename f) (lit ".pdf") = true ->
  Upload.current_pdf_path a = Some (c :: p) ->
  copy_upload file_path (Upload.file f) (world (Upload.rag_service a))
  = (Raise e, w1) ->
  os_path_exists E (c :: p) w1 = true ->
  os_remove E (c :: p) w1 = (Ok tt, w2) ->
  Upload.upload_pdf copy_upload f a
  = (Ok (inl {| Upload.status_code := 500;
                Upload.detail :=
                  VStr (lit "Error uploading PDF: " ++ e) |}),
     {| Upload.rag_service :=
          {| self := self (Upload.rag_service a); world := w2;
             calls := calls (Upload.rag_service a) ++ [Remove (c :: p)] |};
        Upload.current_pdf_path := None |}).
Proof.
  cbv zeta. intros Hx Hc Hw Hex Hr. unfold Upload.upload_pdf.
  rewrite Hx. upload_step. rewrite Hw. upload_step.
  rewrite Hc. upload_step. rewrite Hex. upload_step. rewrite Hr.
  reflexivity.
Qed.

Lemma upload_path (name : str) :
  (Upload.startswith name (lit "/") = false ->
   Upload.os_path_join Upload.UPLOAD_DIR name
   = lit "uploaded_pdfs/" ++ name)
  /\ (Upload.startswith name (lit "/") = true ->
      Upload.os_path_join Upload.UPLOAD_DIR name = name).
Proof.
  unfold Upload.os_path_join.
  split; intros ->; reflexivity.
Qed.

(** X22. Where the upload goes.  A name that does not start with "/" is
    written, and handed to [process_pdf], under "uploaded_pdfs/"; a name
    that starts with "/" is taken by [os.path.join] as the whole path:
    the file is written and ingested at that absolute path, outside the
    upload directory, and that path is recorded in [current_pdf_path]. *)
Theorem upload_pdf_written_path
  (f : Upload.UploadFile) (a : Upload.AppState E) (w1 : World E)
  (n : nat) (m2 : Machine E) :
  let file_path :=
    if Upload.startswith (Upload.filename f) (lit "/")
    then Upload.filename f
    else lit "uploaded_pdfs/" ++ Upload.filename f in
  Upload.endswith (Upload.filename f) (lit ".pdf") = true ->
  copy_upload file_path (Upload.file f) (world (Upload.rag_service a))
  = (Ok tt, w1) ->
  process_pdf file_path (Results.written (Upload.rag_service a) w1)
  = (Ok (processed n), m2) ->
  snd (Upload.upload_pdf copy_upload f a)
  = {| Upload.rag_service := m2;
       Upload.current_pdf_path := Some file_path |}
  /\ exists rest,
       calls m2 = calls (Upload.rag_service a) ++ LoadPdf file_path :: rest.
Proof.
  cbv zeta. intros Hx Hw Hp.
  assert (Hj : Upload.os_path_join Upload.UPLOAD_DIR (Upload.filename f)
               = if Upload.startswith (Upload.filename f) (lit "/")
                 then Upload.filename f
                 else lit "uploaded_pdfs/" ++ Upload.filename f).
  { destruct (upload_path (Upload.filename f)) as [H0 H1].
    destruct (Upload.startswith _ _); auto. }
  split.
  - unfold Upload.upload_pdf.
    rewrite Hx, Hj. upload_step. rewrite Hw. upload_step.
    fold (Results.written (Upload.rag_service a) w1). rewrite Hp.
    reflexivity.
  - pose proof (process_pdf_cases
                  (if Upload.startswith (Upload.filename f) (lit "/")
                   then Upload.filename f
                   else lit "uploaded_pdfs/" ++ Upload.filename f)
                  (Results.written (Upload.rag_service a) w1)) as H.
    cbv zeta in H. cbn [Results.written calls] in H.
    assert (Hm : m2 = snd (process_pdf
                             (if Upload.startswith (Upload.filename f) (lit "/")
                              then Upload.filename f
                              else lit "uploaded_pdfs/" ++ Upload.filename f)
                             (Results.written (Upload.rag_service a) w1)))
      by now rewrite Hp.
    rewrite Hm. clear Hm Hp.
    destruct (PyPDFLoader_load E _ _) as [[documents|e] w2].
    + destruct (FAISS_from_documents E _ _) as [[v|e] w3].
      * destruct (FAISS_save_local E _ _ _) as [[[]|e] w4];
          rewrite H; cbn [snd calls];
          rewrite <- !app_assoc; cbn; eauto.
      * rewrite H; cbn [snd calls]; rewrite <- !app_assoc; cbn; eauto.
    + rewrite H; cbn [snd calls]; eauto.
Qed.

(** ** The API as a whole *)

Lemma grows_refl (m : Machine E) : Results.grows m m.
Proof.
  split; [exists [] | exists []]; rewrite app_nil_r; auto.
Qed.

Lemma grows_trans (m1 m2 m3 : Machine E) :
  Results.grows m1 m2 -> Results.grows m2 m3 -> Results.grows m1 m3.
Proof.
  intros [(n1 & Hc1 & Hn1) (t1 & Hh1 & Hp1)] [(n2 & Hc2 & Hn2) (t2 & Hh2 & Hp2)].
  split.
  - exists (n1 ++ n2). rewrite Hc2, Hc1, app_assoc. split; [reflexivity|].
    rewrite existsb_app, Hn1, Hn2. reflexivity.
  - exists (t1 ++ t2). rewrite Hh2, Hh1, app_assoc. split; [reflexivity|].
    now rewrite paired_app.
Qed.

(** A step that keeps the history and logs [new]. *)
Lemma grows_calls (m m' : Machine E) (new : list (Call E)) :
  calls m' = calls m ++ new ->
  existsb Results.touches_store new = false ->
  chat_history (self m') = chat_history (self m) ->
  Results.grows m m'.
Proof.
  intros Hc Hn Hh. split; [now exists new|].
  exists []. rewrite app_nil_r. auto.
Qed.

Lemma process_pdf_grows (pdf_path : str) (m : Machine E) :
  Results.grows m (snd (process_pdf pdf_path m)).
Proof.
  pose proof (process_pdf_cases pdf_path m) as H. cbv zeta in H.
  destruct (PyPDFLoader_load E _ _) as [[documents|e] w1].
  - destruct (FAISS_from_documents E _ _) as [[v|e] w2].
    + destruct (FAISS_save_local E _ _ _) as [[[]|e] w3];
        rewrite H; cbn [snd];
        (eapply grows_calls;
         [cbn [calls]; rewrite <- !app_assoc; reflexivity
         | reflexivity | reflexivity]).
    + rewrite H; cbn [snd].
      eapply grows_calls;
        [cbn [calls]; rewrite <- !app_assoc; reflexivity
        | reflexivity | reflexivity].
  - rewrite H; cbn [snd].
    eapply grows_calls; [reflexivity | reflexivity | reflexivity].
Qed.

Lemma ask_question_grows (question : str) (m : Machine E) :
  Results.grows m (snd (ask_question question m)).
Proof.
  pose proof (ask_question_cases question m) as H.
  destruct (rag_chain (self m)) as [chain|].
  - cbv zeta in H.
    destruct (FAISS_similarity_search E _ _ _ _) as [[docs|e] w1].
    + destruct (OllamaLLM_invoke E _ w1) as [[answer|e] w2];
        rewrite H; cbn [snd].
      * split.
        -- eexists. cbn [calls]. rewrite <- app_assoc.
           split; reflexivity.
        -- eexists. cbn [self chat_history]. split; reflexivity.
      * eapply grows_calls;
          [cbn [calls]; rewrite <- !app_assoc; reflexivity
          | reflexivity | reflexivity].
    + rewrite H; cbn [snd].
      eapply grows_calls; [reflexivity | reflexivity | reflexivity].
  - rewrite H. apply grows_refl.
Qed.

Lemma remove_if_exists_grows (p : str) (a : Upload.AppState E) :
  let r := Upload.remove_if_exists p a in
  Results.grows (Upload.rag_service a) (Upload.rag_service (snd r))
  /\ Upload.current_pdf_path (snd r) = Upload.current_pdf_path a.
Proof.
  cbv zeta. destruct a as [m cur].
  unfold Upload.remove_if_exists, Upload.on_service, path_exists, external,
    bind, ret.
  cbn.
  destruct (os_path_exists E p (world m)); cbn.
  - destruct (os_remove E p (world m)) as [r w1]; cbn.
    split; [|reflexivity].
    eapply grows_calls; [reflexivity | reflexivity | reflexivity].
  - split; [apply grows_refl | reflexivity].
Qed.

Lemma ret_grows {A : Type} (x : A) (a : Upload.AppState E) :
  Results.grows (Upload.rag_service a)
    (Upload.rag_service (snd (ret x a))).
Proof. apply grows_refl. Qed.

Lemma bind_grows {A B : Type}
  (c : Py (Upload.AppState E) A) (k : A -> Py (Upload.AppState E) B) :
  (forall a, Results.grows (Upload.rag_service a)
               (Upload.rag_service (snd (c a)))) ->
  (forall x a, Results.grows (Upload.rag_service a)
                 (Upload.rag_service (snd (k x a)))) ->
  forall a, Results.grows (Upload.rag_service a)
              (Upload.rag_service (snd (bind c k a))).
Proof.
  intros Hc Hk a. unfold bind. specialize (Hc a).
  destruct (c a) as [[x|e] a1]; cbn [snd] in *; [|exact Hc].
  eapply grows_trans; [exact Hc | apply Hk].
Qed.

Lemma try_except_grows {A : Type}
  (c : Py (Upload.AppState E) A) (h : str -> Py (Upload.AppState E) A) :
  (forall a, Results.grows (Upload.rag_service a)
               (Upload.rag_service (snd (c a)))) ->
  (forall e a, Results.grows (Upload.rag_service a)
                 (Upload.rag_service (snd (h e a)))) ->
  forall a, Results.grows (Upload.rag_service a)
              (Upload.rag_service (snd (try_except c h a))).
Proof.
  intros Hc Hh a. unfold try_except. specialize (Hc a).
  destruct (c a) as [[x|e] a1]; cbn [snd] in *; [exact Hc|].
  eapply grows_trans; [exact Hc | apply Hh].
Qed.

Lemma getitem_grows (d : dict) (key : str) (a : Upload.AppState E) :
  Results.grows (Upload.rag_service a)
    (Upload.rag_service (snd (Upload.getitem d key a))).
Proof.
  unfold Upload.getitem. destruct (dict_get d key); apply grows_refl.
Qed.

(** Whatever happens, [upload_pdf] extends the call log without reading
    or removing the stored index, and keeps the history. *)
Lemma upload_pdf_grows (f : Upload.UploadFile) (a : Upload.AppState E) :
  Results.grows (Upload.rag_service a)
    (Upload.rag_service (snd (Upload.upload_pdf copy_upload f a))).
Proof.
  unfold Upload.upload_pdf.
  destruct (negb _); [apply grows_refl|].
  revert a. apply try_except_grows.
  - apply bind_grows.
    { intros a. unfold Upload.write_file.
      destruct (copy_upload _ _ _) as [r w1]; cbn.
      eapply grows_calls; [symmetry; apply app_nil_r | reflexivity
                          | reflexivity]. }
    intros _. apply bind_grows; [intros a; apply grows_refl|].
    intros _. apply bind_grows.
    { intros a. unfold Upload.on_service.
      pose proof (process_pdf_grows
                    (Upload.os_path_join Upload.UPLOAD_DIR (Upload.filename f))
                    (Upload.rag_service a)) as H.
      destruct (process_pdf _ (Upload.rag_service a)) as [r m1].
      exact H. }
    intros result. apply bind_grows; [apply getitem_grows|].
    intros st. destruct (App.value_eqb st _).
    + apply bind_grows; [intros a; apply remove_if_exists_grows|].
      intros _. apply bind_grows; [intros a; apply grows_refl|].
      intros _. apply bind_grows; [apply getitem_grows|].
      intros msg a. apply grows_refl.
    + apply bind_grows; [apply getitem_grows|].
      intros msg a. apply grows_refl.
  - intros e. apply bind_grows; [intros a; apply grows_refl|].
    intros p. apply bind_grows.
    { destruct p as [[|c path]|]; intros a;
        [apply grows_refl | apply remove_if_exists_grows | apply grows_refl]. }
    intros _. apply bind_grows; [intros a; apply grows_refl|].
    intros _ a. apply grows_refl.
Qed.

Lemma serve_grows (r : Api.Request) (a : Upload.AppState E) :
  Results.grows (Upload.rag_service a)
    (Upload.rag_service (Api.serve copy_upload r a)).
Proof.
  destruct r as [f|q| | ]; cbn [Api.serve Upload.rag_service].
  - unfold Upload.post_upload_pdf.
    pose proof (upload_pdf_grows f a) as H.
    destruct (Upload.upload_pdf copy_upload f a) as [[[exc|r]|e] a'];
      exact H.
  - destruct (post_ask_state q (Upload.rag_service a)) as [H|H]; rewrite H.
    + apply grows_refl.
    + apply ask_question_grows.
  - rewrite get_chat_history_run. apply grows_refl.
  - apply grows_refl.
Qed.

Lemma serve_all_grows (rs : list Api.Request) (a : Upload.AppState E) :
  Results.grows (Upload.rag_service a)
    (Upload.rag_service (Api.serve_all copy_upload rs a)).
Proof.
  revert a. induction rs as [|r rs IH]; intros a; cbn.
  - apply grows_refl.
  - eapply grows_trans; [apply serve_grows | apply IH].
Qed.

(** X23. No request of the API shortens or rewrites the conversation:
    after any sequence of uploads, questions, history and health
    requests, the history is the one of before followed by whole (human,
    ai) exchanges.  In particular no route resets the session. *)
Theorem api_history_only_grows
  (rs : list Api.Request) (a : Upload.AppState E) :
  let a' := Api.serve_all copy_upload rs a in
  exists turns,
    chat_history (self (Upload.rag_service a'))
    = chat_history (self (Upload.rag_service a)) ++ turns
    /\ paired turns = true
    /\ (length (chat_history (self (Upload.rag_service a)))
        <= length (chat_history (self (Upload.rag_service a'))))%nat.
Proof.
  cbv zeta.
  destruct (serve_all_grows rs a) as [_ (turns & Hh & Hp)].
  exists turns. split; [exact Hh|]. split; [exact Hp|].
  rewrite Hh, length_app. lia.
Qed.

(** X24. No request of the API reads the stored index back or removes
    the storage directory: in the calls logged by any sequence of
    requests there is no [FAISS.load_local] and no [shutil.rmtree].  An
    index saved by an earlier process is never used through the API. *)
Theorem api_never_loads_or_clears
  (rs : list Api.Request) (a : Upload.AppState E) :
  let a' := Api.serve_all copy_upload rs a in
  exists new,
    calls (Upload.rag_service a') = calls (Upload.rag_service a) ++ new
    /\ existsb Results.touches_store new = false
    /\ (forall path, ~ In (LoadIndex path) new)
    /\ (forall path, ~ In (Rmtree path) new).
Proof.
  cbv zeta.
  destruct (serve_all_grows rs a) as [(new & Hc & Hn) _].
  exists new. split; [exact Hc|]. split; [exact Hn|].
  split; intros path Hin;
    (assert (Ht : existsb Results.touches_store new = true)
       by (apply existsb_exists; eexists; split; [exact Hin|reflexivity]));
    congruence.
Qed.

(** X25. In every state the API reaches from a newly built service,
    [GET /chat-history] answers with an even [total_messages], and its
    entries are of type "human" at the even places and "ai" at the odd
    ones. *)
Theorem api_chat_history_alternates
  (path : str) (w : World E) (m0 : Machine E) (rs : list Api.Request) :
  __init__ path w = (Ok tt, m0) ->
  let m := Upload.rag_service
             (Api.serve_all copy_upload rs (Api.startup m0)) in
  exists resp,
    History.get_chat_history m = (Ok (inr resp), m)
    /\ Z.even (History.total_messages resp) = true
    /\ forall i cm,
         nth_error (History.chat_history resp) i = Some cm ->
         History.type cm = if Nat.even i then lit "human" else lit "ai".
Proof.
  intros Hinit. cbv zeta.
  destruct (serve_all_grows rs (Api.startup m0)) as [_ (turns & Hh & Hp)].
  cbn [Api.startup Upload.rag_service] in Hh.
  assert (H0 : chat_history (self m0) = []).
  { pose proof (init_self path w) as H. rewrite Hinit in H. cbn in H.
    now rewrite H. }
  rewrite H0 in Hh. cbn in Hh.
  eexists. split; [apply get_chat_history_run|].
  cbn [History.total_messages History.chat_history]. rewrite Hh. split.
  - rewrite Z.even_spec. apply paired_even in Hp.
    apply Nat.even_spec in Hp. destruct Hp as [k ->].
    exists (Z.of_nat k). lia.
  - intros i cm Hn. rewrite nth_error_map in Hn.
    destruct (nth_error turns i) as [msg|] eqn:Hm; [|discriminate].
    injection Hn as <-. cbn.
    rewrite (paired_nth turns Hp i msg Hm).
    now destruct (Nat.even i).
Qed.

End RouteProperties.

(** * More concrete sessions *)

Section MoreRuns.

Import Service.


Lemma process_pdf_nothing_built_witness :
  let m := Sim.started false true in
  ((exists w1,
       PyPDFLoader_load Sim.externals SimUpload.missing_pdf (world m)
       = (Raise SimUpload.no_such_file, w1))
   \/ (exists documents w1 w2,
         PyPDFLoader_load Sim.externals SimUpload.missing_pdf (world m)
         = (Ok documents, w1)
         /\ FAISS_from_documents Sim.externals documents w1
            = (Raise SimUpload.no_such_file, w2)))
  /\ self (snd (process_pdf SimUpload.missing_pdf m)) = self m.
Proof.
  cbv zeta.
  assert (h : (exists w1,
                  PyPDFLoader_load Sim.externals SimUpload.missing_pdf
                    (world (Sim.started false true))
                  = (Raise SimUpload.no_such_file, w1))
              \/ (exists documents w1 w2,
                    PyPDFLoader_load Sim.externals SimUpload.missing_pdf
                      (world (Sim.started false true))
                    = (Ok documents, w1)
                    /\ FAISS_from_documents Sim.externals documents w1
                       = (Raise SimUpload.no_such_file, w2)))
    by (left; eexists; reflexivity).
  split; [exact h|].
  exact (proj1 (proj2 (process_pdf_nothing_built SimUpload.missing_pdf
                         (Sim.started false true) SimUpload.no_such_file h))).
Defined.

Lemma status_after_process_pdf_witness :
  let m := Sim.started false true in
  let m' := snd (process_pdf Sim.report_pdf m) in
  process_pdf Sim.report_pdf m = (Ok (processed 2), m')
  /\ dict_get (processed 2) (lit "status") = Some success
  /\ get_status m' = (Ok (Results.ready_status 0), m').
Proof.
  cbv zeta.
  assert (h1 : process_pdf Sim.report_pdf (Sim.started false true)
               = (Ok (processed 2),
                  snd (process_pdf Sim.report_pdf (Sim.started false true))))
    by (vm_compute; reflexivity).
  assert (h2 : dict_get (processed 2) (lit "status") = Some success)
    by reflexivity.
  split; [exact h1|]. split; [exact h2|].
  exact (status_after_process_pdf _ _ _ _ h1 h2).
Defined.


Lemma load_existing_vectorstore_success_ready_witness :
  let m := snd (clear_session (Sim.ingested false true)) in
  let m1 := snd (process_pdf Sim.report_pdf m) in
  let m2 :=
    {| self := fresh_service Sim.vector_db; world := world m1;
       calls := [] |} in
  let m' := snd (load_existing_vectorstore m2) in
  load_existing_vectorstore m2 = (Ok loaded, m')
  /\ dict_get loaded (lit "status") = Some success
  /\ exists v, self m' = ready_on (self m2) v.
Proof.
  cbv zeta.
  set (m2 := {| self := fresh_service Sim.vector_db;
                world := world (snd (process_pdf Sim.report_pdf
                                       (snd (clear_session
                                               (Sim.ingested false true)))));
                calls := [] |}).
  assert (h1 : load_existing_vectorstore m2
               = (Ok loaded, snd (load_existing_vectorstore m2)))
    by (vm_compute; reflexivity).
  assert (h2 : dict_get loaded (lit "status") = Some success)
    by reflexivity.
  split; [exact h1|]. split; [exact h2|].
  destruct (load_existing_vectorstore_success_ready _ _ _ h1 h2)
    as (v & _ & H & _).
  exists v. exact H.
Defined.


Lemma chain_needs_index_witness :
  let ops := [ProcessPdf Sim.report_pdf; Ask Sim.what_is_rocq;
              ProcessPdf SimUpload.missing_pdf; LoadExisting] in
  let s := self (run ops (Sim.started false true)) in
  __init__ (E:=Sim.externals) Sim.vector_db SimUpload.world0
  = (Ok tt, Sim.started false true)
  /\ rag_chain s <> None
  /\ vectorstore s <> None.
Proof.
  cbv zeta.
  assert (h1 : __init__ (E:=Sim.externals) Sim.vector_db SimUpload.world0
               = (Ok tt, Sim.started false true)) by reflexivity.
  assert (h2 : rag_chain
                 (self (run [ProcessPdf Sim.report_pdf;
                             Ask Sim.what_is_rocq;
                             ProcessPdf SimUpload.missing_pdf; LoadExisting]
                          (Sim.started false true))) <> None)
    by (vm_compute; discriminate).
  split; [exact h1|]. split; [exact h2|].
  exact (proj1 (chain_needs_index _ _ _
                  [ProcessPdf Sim.report_pdf; Ask Sim.what_is_rocq;
                   ProcessPdf SimUpload.missing_pdf; LoadExisting] h1) h2).
Defined.

Lemma ask_question_retrieval_failure_witness :
  let m := SimFaulty.ingested in
  rag_chain (self m) = Some SimFaulty.chain
  /\ SimFaulty.similarity_search Sim.index Sim.what_is_rocq 3 (world m)
     = (Raise SimFaulty.search_error, world m)
  /\ fst (ask_question Sim.what_is_rocq m)
     = Ok (generation_error SimFaulty.search_error).
Proof.
  cbv zeta.
  assert (h1 : rag_chain (self SimFaulty.ingested) = Some SimFaulty.chain)
    by reflexivity.
  assert (h2 : FAISS_similarity_search SimFaulty.externals
                 (retriever_vectorstore (chain_retriever SimFaulty.chain))
                 Sim.what_is_rocq
                 (search_k (chain_retriever SimFaulty.chain))
                 (world SimFaulty.ingested)
               = (Raise SimFaulty.search_error, world SimFaulty.ingested))
    by reflexivity.
  split; [exact h1|]. split; [exact h2|].
  rewrite (proj1 (ask_question_retrieval_failure _ _ _ _ _ h1 h2)).
  reflexivity.
Defined.

Lemma second_prompt_carries_first_exchange_witness :
  let m := Sim.ingested false true in
  let m1 := snd (ask_question Sim.what_is_rocq m) in
  let q2 := lit "And?" in
  ask_question Sim.what_is_rocq m
  = (Ok (answered Sim.what_is_rocq SimUpload.echo), m1)
  /\ rag_chain (self m1) = Some Sim.chain
  /\ Sim.similarity_search Sim.index q2 3 (world m1)
     = (Ok Sim.index, world m1)
  /\ calls (snd (ask_question q2 m1))
     = calls m1
       ++ [Retrieve (E:=Sim.externals) Sim.index q2 3;
           Generate
             (Message system (system_prompt (format_docs Sim.index))
              :: [Message human Sim.what_is_rocq;
                  Message ai SimUpload.echo; Message human q2])].
Proof.
  cbv zeta.
  assert (h1 : ask_question Sim.what_is_rocq (Sim.ingested false true)
               = (Ok (answered Sim.what_is_rocq SimUpload.echo),
                  snd (ask_question Sim.what_is_rocq
                         (Sim.ingested false true))))
    by (vm_compute; reflexivity).
  assert (h2 : rag_chain
                 (self (snd (ask_question Sim.what_is_rocq
                               (Sim.ingested false true))))
               = Some Sim.chain) by reflexivity.
  assert (h3 : FAISS_similarity_search Sim.externals
                 (retriever_vectorstore (chain_retriever Sim.chain))
                 (lit "And?") (search_k (chain_retriever Sim.chain))
                 (world (snd (ask_question Sim.what_is_rocq
                                (Sim.ingested false true))))
               = (Ok Sim.index,
                  world (snd (ask_question Sim.what_is_rocq
                                (Sim.ingested false true)))))
    by reflexivity.
  split; [exact h1|]. split; [exact h2|]. split; [exact h3|].
  exact (second_prompt_carries_first_exchange _ _ _ _ _ _ _ _ h1 h2 h3).
Defined.

Lemma post_ask_answer_witness :
  let m := Sim.ingested false true in
  let q := lit " What is Rocq? " in
  let a := lit "You asked:  What is Rocq? " in
  blank q = false
  /\ ask_question q m = (Ok (answered q a), snd (ask_question q m))
  /\ chat_history (self (snd (ask_question q m)))
     = [Message human q; Message ai a].
Proof.
  cbv zeta.
  assert (h1 : blank (lit " What is Rocq? ") = false) by reflexivity.
  assert (h2 : ask_question (lit " What is Rocq? ") (Sim.ingested false true)
               = (Ok (answered (lit " What is Rocq? ")
                        (lit "You asked:  What is Rocq? ")),
                  snd (ask_question (lit " What is Rocq? ")
                         (Sim.ingested false true))))
    by (vm_compute; reflexivity).
  split; [exact h1|]. split; [exact h2|].
  exact (proj2 (post_ask_answer _ _ _ _ h1 h2)).
Defined.

Lemma post_ask_without_document_witness :
  blank Sim.what_is_rocq = false
  /\ rag_chain (self (Sim.started false true)) = None
  /\ App.code_of (fst (App.post_ask Sim.what_is_rocq (Sim.started false true)))
     = 400%Z.
Proof.
  assert (h1 : blank Sim.what_is_rocq = false) by reflexivity.
  assert (h2 : rag_chain (self (Sim.started false true)) = None)
    by reflexivity.
  split; [exact h1|]. split; [exact h2|].
  rewrite (post_ask_without_document _ _ h1 h2). reflexivity.
Defined.

Lemma upload_pdf_wrong_extension_witness :
  (forall stem, Upload.filename SimUpload.picture <> stem ++ lit ".pdf")
  /\ Upload.post_upload_pdf SimUpload.copy_upload SimUpload.picture
       (SimUpload.app false true)
     = (400%Z, SimUpload.app false true).
Proof.
  assert (h : forall stem,
             Upload.filename SimUpload.picture <> stem ++ lit ".pdf").
  { intros stem Hs.
    assert (Hx : Upload.endswith (Upload.filename SimUpload.picture)
                   (lit ".pdf") = true)
      by (apply endswith_spec; exists stem; exact Hs).
    vm_compute in Hx. discriminate. }
  split; [exact h|].
  exact (proj2 (upload_pdf_wrong_extension SimUpload.copy_upload
                  SimUpload.picture (SimUpload.app false true) h)).
Defined.

Lemma upload_pdf_success_witness :
  let a := SimUpload.app false true in
  let w1 := snd (SimUpload.copy_upload Sim.report_pdf [37%N; 80%N]
                   (world (Upload.rag_service a))) in
  let m2 := snd (process_pdf Sim.report_pdf
                   (Results.written (Upload.rag_service a) w1)) in
  Upload.endswith (Upload.filename SimUpload.report) (lit ".pdf") = true
  /\ SimUpload.copy_upload Sim.report_pdf [37%N; 80%N]
       (world (Upload.rag_service a)) = (Ok tt, w1)
  /\ process_pdf Sim.report_pdf (Results.written (Upload.rag_service a) w1)
     = (Ok (processed 2), m2)
  /\ Upload.upload_pdf SimUpload.copy_upload SimUpload.report a
     = (Ok (inr {| Upload.status := lit "success";
                   Upload.message :=
                     Results.upload_message (lit "report.pdf") 2 |}),
        {| Upload.rag_service := m2;
           Upload.current_pdf_path := Some Sim.report_pdf |}).
Proof.
  cbv zeta.
  set (a := SimUpload.app false true).
  set (w1 := snd (SimUpload.copy_upload Sim.report_pdf [37%N; 80%N]
                    (world (Upload.rag_service a)))).
  set (m2 := snd (process_pdf Sim.report_pdf
                    (Results.written (Upload.rag_service a) w1))).
  assert (h1 : Upload.endswith (Upload.filename SimUpload.report)
                 (lit ".pdf") = true) by reflexivity.
  assert (h2 : SimUpload.copy_upload
                 (Upload.os_path_join Upload.UPLOAD_DIR
                    (Upload.filename SimUpload.report))
                 (Upload.file SimUpload.report)
                 (world (Upload.rag_service a)) = (Ok tt, w1))
    by reflexivity.
  assert (h3 : process_pdf
                 (Upload.os_path_join Upload.UPLOAD_DIR
                    (Upload.filename SimUpload.report))
                 (Results.written (Upload.rag_service a) w1)
               = (Ok (processed 2), m2))
    by (vm_compute; reflexivity).
  split; [exact h1|]. split; [exact h2|]. split; [exact h3|].
  exact (upload_pdf_success SimUpload.copy_upload SimUpload.report a w1 2 m2
           h1 h2 h3).
Defined.

Lemma upload_pdf_written_path_witness :
  let a := SimUpload.app false true in
  let w1 := snd (SimUpload.copy_upload Sim.report_pdf [37%N; 80%N]
                   (world (Upload.rag_service a))) in
  let m2 := snd (process_pdf Sim.report_pdf
                   (Results.written (Upload.rag_service a) w1)) in
  Upload.endswith (Upload.filename SimUpload.report) (lit ".pdf") = true
  /\ SimUpload.copy_upload Sim.report_pdf [37%N; 80%N]
       (world (Upload.rag_service a)) = (Ok tt, w1)
  /\ process_pdf Sim.report_pdf (Results.written (Upload.rag_service a) w1)
     = (Ok (processed 2), m2)
  /\ Upload.current_pdf_path
       (snd (Upload.upload_pdf SimUpload.copy_upload SimUpload.report a))
     = Some (lit "uploaded_pdfs/report.pdf").
Proof.
  cbv zeta.
  set (a := SimUpload.app false true).
  set (w1 := snd (SimUpload.copy_upload Sim.report_pdf [37%N; 80%N]
                    (world (Upload.rag_service a)))).
  set (m2 := snd (process_pdf Sim.report_pdf
                    (Results.written (Upload.rag_service a) w1))).
  assert (h1 : Upload.endswith (Upload.filename SimUpload.report)
                 (lit ".pdf") = true) by reflexivity.
  assert (h2 : SimUpload.copy_upload
                 (if Upload.startswith (Upload.filename SimUpload.report)
                       (lit "/")
                  then Upload.filename SimUpload.report
                  else lit "uploaded_pdfs/" ++ Upload.filename SimUpload.report)
                 (Upload.file SimUpload.report)
                 (world (Upload.rag_service a)) = (Ok tt, w1))
    by reflexivity.
  assert (h3 : process_pdf
                 (if Upload.startswith (Upload.filename SimUpload.report)
                       (lit "/")
                  then Upload.filename SimUpload.report
                  else lit "uploaded_pdfs/" ++ Upload.filename SimUpload.report)
                 (Results.written (Upload.rag_service a) w1)
               = (Ok (processed 2), m2))
    by (vm_compute; reflexivity).
  split; [exact h1|]. split; [exact h2|]. split; [exact h3|].
  rewrite (proj1 (upload_pdf_written_path SimUpload.copy_upload
                    SimUpload.report a w1 2 m2 h1 h2 h3)).
  reflexivity.
Defined.

Lemma upload_pdf_processing_failure_witness :
  let a := SimUpload.app false true in
  let w1 := snd (SimUpload.copy_upload SimUpload.notes_pdf [37%N; 80%N]
                   (world (Upload.rag_service a))) in
  let m2 := snd (process_pdf SimUpload.notes_pdf
                   (Results.written (Upload.rag_service a) w1)) in
  let w3 := snd (Sim.remove SimUpload.notes_pdf (world m2)) in
  Upload.endswith (Upload.filename SimUpload.notes) (lit ".pdf") = true
  /\ SimUpload.copy_upload SimUpload.notes_pdf [37%N; 80%N]
       (world (Upload.rag_service a)) = (Ok tt, w1)
  /\ process_pdf SimUpload.notes_pdf
       (Results.written (Upload.rag_service a) w1)
     = (Ok (processing_error SimUpload.no_such_file), m2)
  /\ Sim.remove SimUpload.notes_pdf (world m2) = (Ok tt, w3)
  /\ Upload.post_upload_pdf SimUpload.copy_upload SimUpload.notes a
     = (500%Z,
        {| Upload.rag_service :=
             {| self := self m2; world := w3;
                calls := calls m2 ++ [Remove SimUpload.notes_pdf] |};
           Upload.current_pdf_path := None |})
  /\ Sim.path_exists SimUpload.notes_pdf w3 = false.
Proof.
  cbv zeta.
  set (a := SimUpload.app false true).
  set (w1 := snd (SimUpload.copy_upload SimUpload.notes_pdf [37%N; 80%N]
                    (world (Upload.rag_service a)))).
  set (m2 := snd (process_pdf SimUpload.notes_pdf
                    (Results.written (Upload.rag_service a) w1))).
  set (w3 := snd (Sim.remove SimUpload.notes_pdf (world m2))).
  assert (h1 : Upload.endswith (Upload.filename SimUpload.notes)
                 (lit ".pdf") = true) by reflexivity.
  assert (h2 : SimUpload.copy_upload
                 (Upload.os_path_join Upload.UPLOAD_DIR
                    (Upload.filename SimUpload.notes))
                 (Upload.file SimUpload.notes)
                 (world (Upload.rag_service a)) = (Ok tt, w1))
    by reflexivity.
  assert (h3 : process_pdf
                 (Upload.os_path_join Upload.UPLOAD_DIR
                    (Upload.filename SimUpload.notes))
                 (Results.written (Upload.rag_service a) w1)
               = (Ok (processing_error SimUpload.no_such_file), m2))
    by (vm_compute; reflexivity).
  assert (h4 : os_remove Sim.externals
                 (Upload.os_path_join Upload.UPLOAD_DIR
                    (Upload.filename SimUpload.notes)) (world m2)
               = (Ok tt, w3)) by reflexivity.
  split; [exact h1|]. split; [exact h2|]. split; [exact h3|].
  split; [exact h4|]. split; [|reflexivity].
  unfold Upload.post_upload_pdf.
  rewrite (upload_pdf_processing_failure SimUpload.copy_upload
             SimUpload.notes a w1 w3 SimUpload.no_such_file m2
             h1 h2 h3 h4).
  reflexivity.
Defined.

Lemma upload_pdf_write_failure_witness :
  let a := SimUpload.app true true in
  Upload.endswith (Upload.filename SimUpload.report) (lit ".pdf") = true
  /\ SimUpload.copy_upload Sim.report_pdf [37%N; 80%N]
       (world (Upload.rag_service a))
     = (Raise SimUpload.denied, world (Upload.rag_service a))
  /\ self (Upload.rag_service
             (snd (Upload.upload_pdf SimUpload.copy_upload
                     SimUpload.report a)))
     = self (Upload.rag_service a).
Proof.
  cbv zeta.
  set (a := SimUpload.app true true).
  assert (h1 : Upload.endswith (Upload.filename SimUpload.report)
                 (lit ".pdf") = true) by reflexivity.
  assert (h2 : SimUpload.copy_upload
                 (Upload.os_path_join Upload.UPLOAD_DIR
                    (Upload.filename SimUpload.report))
                 (Upload.file SimUpload.report)
                 (world (Upload.rag_service a))
               = (Raise SimUpload.denied, world (Upload.rag_service a)))
    by reflexivity.
  split; [exact h1|]. split; [exact h2|].
  exact (proj1 (upload_pdf_write_failure SimUpload.copy_upload
                  SimUpload.report a _ _ h1 h2)).
Defined.

Lemma upload_pdf_write_failure_removes_previous_witness :
  let a := SimUpload.locked in
  let w := world (Upload.rag_service a) in
  let w2 := snd (Sim.remove Sim.report_pdf w) in
  Upload.endswith (Upload.filename SimUpload.notes) (lit ".pdf") = true
  /\ Upload.current_pdf_path a = Some Sim.report_pdf
  /\ SimUpload.copy_upload SimUpload.notes_pdf [37%N; 80%N] w
     = (Raise SimUpload.denied, w)
  /\ Sim.path_exists Sim.report_pdf w = true
  /\ Sim.remove Sim.report_pdf w = (Ok tt, w2)
  /\ Upload.current_pdf_path
       (snd (Upload.upload_pdf SimUpload.copy_upload SimUpload.notes a))
     = None
  /\ Sim.path_exists Sim.report_pdf
       (world (Upload.rag_service
                 (snd (Upload.upload_pdf SimUpload.copy_upload
                         SimUpload.notes a))))
     = false
  /\ rag_chain (self (Upload.rag_service
                        (snd (Upload.upload_pdf SimUpload.copy_upload
                                SimUpload.notes a))))
     = Some Sim.chain.
Proof.
  cbv zeta.
  set (a := SimUpload.locked).
  set (w := world (Upload.rag_service a)).
  set (w2 := snd (Sim.remove Sim.report_pdf w)).
  assert (h1 : Upload.endswith (Upload.filename SimUpload.notes)
                 (lit ".pdf") = true) by reflexivity.
  assert (h2 : Upload.current_pdf_path a
               = Some (117%N :: lit "ploaded_pdfs/report.pdf"))
    by reflexivity.
  assert (h3 : SimUpload.copy_upload
                 (Upload.os_path_join Upload.UPLOAD_DIR
                    (Upload.filename SimUpload.notes))
                 (Upload.file SimUpload.notes)
                 (world (Upload.rag_service a))
               = (Raise SimUpload.denied, w)) by reflexivity.
  assert (h4 : os_path_exists Sim.externals
                 (117%N :: lit "ploaded_pdfs/report.pdf") w = true)
    by reflexivity.
  assert (h5 : os_remove Sim.externals
                 (117%N :: lit "ploaded_pdfs/report.pdf") w = (Ok tt, w2))
    by reflexivity.
  split; [exact h1|]. split; [exact h2|]. split; [exact h3|].
  split; [exact h4|]. split; [exact h5|].
  rewrite (upload_pdf_write_failure_removes_previous SimUpload.copy_upload
             SimUpload.notes a w w2 SimUpload.denied _ _ h1 h2 h3 h4 h5).
  repeat split; reflexivity.
Defined.

Lemma api_chat_history_alternates_witness :
  let rs := [Api.PostAsk Sim.what_is_rocq;
             Api.PostUploadPdf SimUpload.report;
             Api.PostAsk Sim.what_is_rocq; Api.GetChatHistory;
             Api.PostUploadPdf SimUpload.notes;
             Api.PostAsk (lit "And?"); Api.GetHealth] in
  let m := Upload.rag_service
             (Api.serve_all SimUpload.copy_upload rs
                (Api.startup (Sim.started false true))) in
  __init__ (E:=Sim.externals) Sim.vector_db SimUpload.world0
  = (Ok tt, Sim.started false true)
  /\ length (chat_history (self m)) = 4
  /\ exists resp,
       History.get_chat_history m = (Ok (inr resp), m)
       /\ Z.even (History.total_messages resp) = true.
Proof.
  cbv zeta.
  assert (h1 : __init__ (E:=Sim.externals) Sim.vector_db SimUpload.world0
               = (Ok tt, Sim.started false true)) by reflexivity.
  split; [exact h1|]. split; [vm_compute; reflexivity|].
  destruct (api_chat_history_alternates SimUpload.copy_upload _ _ _
              [Api.PostAsk Sim.what_is_rocq;
               Api.PostUploadPdf SimUpload.report;
               Api.PostAsk Sim.what_is_rocq; Api.GetChatHistory;
               Api.PostUploadPdf SimUpload.notes;
               Api.PostAsk (lit "And?"); Api.GetHealth] h1)
    as (resp & H1 & H2 & _).
  exists resp. split; [exact H1 | exact H2].
Defined.

End MoreRuns.
